(** * MyNewLineService: the LINE feedback bot, its user cache and its store

    A shallow embedding of [line_bot3.py] and [line_bot7.py].

    - Python [str] values are Rocq strings; the text functions below follow
      Python on code points below 128.
    - The process-wide dict [user_cache] and the SQLite table [users] are
      finite maps keyed by user id; both live in a [World] that every
      function threads through, together with the list of calls made to the
      outside (profile fetch, downstream POST, reply).
    - A Python function is a computation [Py A]: it takes a world and gives
      back a value or a raised exception, and the world it left behind.
      What was written before an exception stays written.
    - [print] and [logging.info] lines have no effect on any of this and are
      left out. *)

From stdpp Require Import base option list gmap strings pretty.
From Stdlib Require Import ZArith Ascii String.

Open Scope Z_scope.
Open Scope string_scope.
Open Scope list_scope.

(** ** Python text primitives *)

Module PyStr.

(** [str.isspace] and the class [\s] of [re] on code points below 128:
    tab, newline, vertical tab, form feed, carriage return (9..13), the
    four separators 28..31 and the blank. *)
Definition is_space (c : ascii) : bool :=
  let n := nat_of_ascii c in
  ((9 <=? n)%nat && (n <=? 13)%nat) || ((28 <=? n)%nat && (n <=? 32)%nat).

(** The class [\d] on code points below 128. *)
Definition is_digit (c : ascii) : bool :=
  let n := nat_of_ascii c in (48 <=? n)%nat && (n <=? 57)%nat.

(** The class [.] (no DOTALL flag): anything but a newline. *)
Definition is_dot (c : ascii) : bool :=
  negb (nat_of_ascii c =? 10)%nat.

Definition lower_char (c : ascii) : ascii :=
  let n := nat_of_ascii c in
  if ((65 <=? n)%nat && (n <=? 90)%nat)%bool then ascii_of_nat (n + 32) else c.

(** [s.lower()] *)
Fixpoint lower (s : string) : string :=
  match s with
  | EmptyString => EmptyString
  | String c s' => String (lower_char c) (lower s')
  end.

(** [needle in hay] *)
Fixpoint contains (needle hay : string) : bool :=
  String.prefix needle hay ||
  match hay with
  | EmptyString => false
  | String _ hay' => contains needle hay'
  end.

Definition digit_value (c : ascii) : Z := Z.of_nat (nat_of_ascii c) - 48.

Fixpoint int_acc (acc : Z) (s : string) : Z :=
  match s with
  | EmptyString => acc
  | String c s' => int_acc (10 * acc + digit_value c) s'
  end.

(** [int(s)] for a string of decimal digits, as [\d+] captures them. *)
Definition int (s : string) : Z := int_acc 0 s.

(** [str(n)], as an f-string formats an int. *)
Definition str_of_int (n : Z) : string := pretty n.

End PyStr.

(** ** The fragment of [re] that the two patterns use

    Backtracking matching as [re] does it: alternatives are tried left to
    right, repetitions are greedy and give characters back one at a time,
    and [search] returns the match at the leftmost start that has one. *)

Module Re.

Inductive regex : Type :=
| Lit (l : string)                 (* literal text *)
| Class (p : ascii -> bool)        (* one character of a class *)
| Star (p : ascii -> bool)         (* class*, greedy *)
| Plus (p : ascii -> bool)         (* class+, greedy *)
| Alt (r1 r2 : regex)              (* r1|r2 *)
| Seq (r1 r2 : regex)
| Group (n : nat) (r : regex).     (* capturing group number n *)

Definition captures := list (nat * string).

Fixpoint group (n : nat) (g : captures) : option string :=
  match g with
  | [] => None
  | (m, s) :: g' => if (n =? m)%nat then Some s else group n g'
  end.

Fixpoint strip_prefix (l s : string) : option string :=
  match l with
  | EmptyString => Some s
  | String a l' =>
      match s with
      | EmptyString => None
      | String b s' => if Ascii.eqb a b then strip_prefix l' s' else None
      end
  end.

Fixpoint star_greedy {A} (p : ascii -> bool) (s : string)
    (k : string -> option A) : option A :=
  match s with
  | EmptyString => k s
  | String c s' =>
      if p c then
        match star_greedy p s' k with
        | Some r => Some r
        | None => k s
        end
      else k s
  end.

(** What a group matched: the part of [s] in front of the rest [s']. *)
Definition consumed (s s' : string) : string :=
  String.substring 0 (String.length s - String.length s') s.

Fixpoint rmatch (r : regex) (s : string) (g : captures)
    (k : string -> captures -> option captures) : option captures :=
  match r with
  | Lit l =>
      match strip_prefix l s with
      | Some s' => k s' g
      | None => None
      end
  | Class p =>
      match s with
      | String c s' => if p c then k s' g else None
      | EmptyString => None
      end
  | Star p => star_greedy p s (fun s' => k s' g)
  | Plus p =>
      match s with
      | String c s' => if p c then star_greedy p s' (fun s'' => k s'' g) else None
      | EmptyString => None
      end
  | Alt r1 r2 =>
      match rmatch r1 s g k with
      | Some m => Some m
      | None => rmatch r2 s g k
      end
  | Seq r1 r2 => rmatch r1 s g (fun s' g' => rmatch r2 s' g' k)
  | Group n r1 => rmatch r1 s g (fun s' g' => k s' ((n, consumed s s') :: g'))
  end.

Definition match_here (r : regex) (s : string) : option captures :=
  rmatch r s [] (fun _ g => Some g).

(** [re.search(r, s)]: [None] when there is no match. *)
Fixpoint search (r : regex) (s : string) : option captures :=
  match match_here r s with
  | Some g => Some g
  | None =>
      match s with
      | EmptyString => None
      | String _ s' => search r s'
      end
  end.

End Re.

(** [r':\s*(.+)'] *)
Definition text_pattern : Re.regex :=
  Re.Seq (Re.Lit ":")
    (Re.Seq (Re.Star PyStr.is_space) (Re.Group 1 (Re.Plus PyStr.is_dot))).

(** [r'(feedback|action feedback):\s(\d+)\s+\( id :\s(\d+)'] *)
Definition postback_pattern : Re.regex :=
  Re.Seq (Re.Group 1 (Re.Alt (Re.Lit "feedback") (Re.Lit "action feedback")))
    (Re.Seq (Re.Lit ":")
      (Re.Seq (Re.Class PyStr.is_space)
        (Re.Seq (Re.Group 2 (Re.Plus PyStr.is_digit))
          (Re.Seq (Re.Plus PyStr.is_space)
            (Re.Seq (Re.Lit "( id :")
              (Re.Seq (Re.Class PyStr.is_space)
                (Re.Group 3 (Re.Plus PyStr.is_digit)))))))).

(** ** Data model *)

(** A row of [users] without its key, and equally a value of [user_cache]:
    [{"display_name": ..., "last_record_id": ...}], with [None] for NULL. *)
Record UserRecord : Type := mkUser {
  display_name : string;
  last_record_id : option Z
}.

(** The JSON object that [send_to_powerapp] posts. [displayName] and
    [recordId] can be [None] (JSON null). *)
Record ForwardCall : Type := mkForward {
  userId : string;
  displayName : option string;
  feedback : Z;
  recordId : option Z;
  feedbacktxt : string;
  list_type : string
}.

(** Calls that leave the process, in the order they are made. *)
Inductive Effect : Type :=
| GetProfile (user_id : string)
| PostForward (c : ForwardCall)
| ReplyMessage (reply_token text : string).

Record World : Type := mkWorld {
  user_cache : gmap string UserRecord;
  users : gmap string UserRecord;
  trace : list Effect
}.

Inductive exn : Type :=
| InvalidSignatureError
| LineBotApiError          (* get_profile or reply_message failed *)
| RequestException         (* requests.post failed *)
| OverflowError            (* int outside SQLite's 64-bit INTEGER *)
| HTTPException (code : Z). (* flask.abort *)

(** How the outside answers. [None] and [false] stand for a call that
    raises. *)
Record Platform : Type := mkPlatform {
  profile_of : string -> option string;
  post_ok : ForwardCall -> bool;
  reply_ok : string -> string -> bool
}.

Inductive Event : Type :=
| MessageEvent (user_id text reply_token : string)   (* text message *)
| PostbackEvent (user_id data reply_token : string)
| OtherEvent.                                        (* no handler registered *)

(** An inbound webhook request after the SDK looked at it: whether the
    signature matches the body, and the events of the body. *)
Record Request : Type := mkRequest {
  signature_valid : bool;
  events : list Event
}.

(** ** Computations *)

Inductive Result (A : Type) : Type :=
| Val (a : A)
| Exc (e : exn).
Arguments Val {A} a.
Arguments Exc {A} e.

Definition Py (A : Type) : Type := World -> Result A * World.

Definition ret {A} (a : A) : Py A := fun w => (Val a, w).

Definition bind {A B} (m : Py A) (k : A -> Py B) : Py B :=
  fun w =>
    match m w with
    | (Val a, w') => k a w'
    | (Exc e, w') => (Exc e, w')
    end.

Definition raise {A} (e : exn) : Py A := fun w => (Exc e, w).

(** [try: m except e: h] *)
Definition try_except {A} (m : Py A) (catches : exn -> bool) (h : Py A) : Py A :=
  fun w =>
    match m w with
    | (Val a, w') => (Val a, w')
    | (Exc e, w') => if catches e then h w' else (Exc e, w')
    end.

Declare Scope py_scope.
Delimit Scope py_scope with py.
Notation "x <- m ;; k" := (bind m (fun x => k))
  (at level 100, m at next level, right associativity) : py_scope.
Notation "m ;;; k" := (bind m (fun _ => k))
  (at level 100, right associativity) : py_scope.
Open Scope py_scope.

Definition get_cache : Py (gmap string UserRecord) :=
  fun w => (Val (user_cache w), w).

Definition set_cache (c : gmap string UserRecord) : Py unit :=
  fun w => (Val tt, mkWorld c (users w) (trace w)).

Definition emit (e : Effect) : Py unit :=
  fun w => (Val tt, mkWorld (user_cache w) (users w) (trace w ++ [e])).

(** ** SQLite statements on the table [users] *)

Module Sql.

(** [SELECT user_id, display_name, last_record_id FROM users] *)
Definition select_all : Py (gmap string UserRecord) :=
  fun w => (Val (users w), w).

Definition set_table (t : gmap string UserRecord) : Py unit :=
  fun w => (Val tt, mkWorld (user_cache w) t (trace w)).

(** [INSERT OR IGNORE INTO users (user_id, display_name) VALUES (?, ?)]:
    a row whose key exists stays as it is, and no error is raised. *)
Definition insert_or_ignore (user_id name : string) : Py unit :=
  t <- select_all ;;
  match t !! user_id with
  | Some _ => ret tt
  | None => set_table (<[user_id := mkUser name None]> t)
  end.

(** An INTEGER parameter must fit in 64 signed bits. *)
Definition fits_integer (n : Z) : bool :=
  ((- 2 ^ 63 <=? n) && (n <? 2 ^ 63))%Z.

Definition set_last (r : Z) (u : UserRecord) : UserRecord :=
  mkUser (display_name u) (Some r).

(** [UPDATE users SET last_record_id = ? WHERE user_id = ?] *)
Definition update_last_record_id (record_id : Z) (user_id : string) : Py unit :=
  if fits_integer record_id then
    t <- select_all ;;
    set_table (alter (set_last record_id) user_id t)
  else raise OverflowError.

(** [DELETE FROM users] *)
Definition delete_all : Py unit := set_table ∅.

End Sql.

(** ** Functions shared word for word by the two files *)

(** [load_cache_from_db]: the dict comprehension over all rows. *)
Definition load_cache_from_db : Py unit :=
  rows <- Sql.select_all ;;
  set_cache rows.

Definition add_user (user_id name : string) : Py unit :=
  c <- get_cache ;;
  set_cache (<[user_id := mkUser name None]> c) ;;;
  Sql.insert_or_ignore user_id name.

(** [user_cache.get(user_id, {}).get("display_name")] *)
Definition get_display_name (user_id : string) : Py (option string) :=
  c <- get_cache ;;
  ret (display_name <$> c !! user_id).

(** The first definition of [update_last_record_id] in [line_bot3.py]
    (cache only); the second definition below replaces it at import time, so
    no caller ever runs this one. *)
Definition update_last_record_id_shadowed (user_id : string) (record_id : Z) : Py unit :=
  c <- get_cache ;;
  match c !! user_id with
  | Some _ => set_cache (alter (Sql.set_last record_id) user_id c)
  | None => ret tt
  end.

Definition update_last_record_id (user_id : string) (record_id : Z) : Py unit :=
  c <- get_cache ;;
  match c !! user_id with
  | Some _ => set_cache (alter (Sql.set_last record_id) user_id c)
  | None => ret tt
  end ;;;
  Sql.update_last_record_id record_id user_id.

(** [user_cache.get(user_id, {}).get("last_record_id")] *)
Definition get_last_record_id (user_id : string) : Py (option Z) :=
  c <- get_cache ;;
  ret (c !! user_id ≫= last_record_id).

Definition delete_all_users : Py unit := Sql.delete_all.

(** [init_db]: [CREATE TABLE IF NOT EXISTS]; a table that is not there yet is
    the empty table here. *)
Definition init_db : Py unit := ret tt.

(** The two calls at import time, after [user_cache = {}]. *)
Definition startup : Py unit :=
  set_cache ∅ ;;;
  init_db ;;;
  load_cache_from_db.

(** Python truth value of [display_name]: [None] and the empty string are
    false. *)
Definition truthy (name : option string) : bool :=
  match name with
  | None => false
  | Some EmptyString => false
  | Some _ => true
  end.

(** [if not user_cache: load_cache_from_db()] *)
Definition reload_if_empty : Py unit :=
  c <- get_cache ;;
  if decide (c = ∅) then load_cache_from_db else ret tt.

Section Handlers.

Context (P : Platform).

Definition send_to_powerapp (user_id : string) (name : option string)
    (fb : Z) (record_id : option Z) (txt lt : string) : Py unit :=
  let c := mkForward user_id name fb record_id txt lt in
  emit (PostForward c) ;;;
  if post_ok P c then ret tt else raise RequestException.

(** [line_bot_api.get_profile(user_id).display_name] *)
Definition get_profile (user_id : string) : Py string :=
  emit (GetProfile user_id) ;;;
  match profile_of P user_id with
  | Some name => ret name
  | None => raise LineBotApiError
  end.

Definition reply_message (reply_token text : string) : Py unit :=
  emit (ReplyMessage reply_token text) ;;;
  if reply_ok P reply_token text then ret tt else raise LineBotApiError.

(** The new-user branch, the same in both files. *)
Definition bootstrap (user_id : string) : Py unit :=
  name <- get_profile user_id ;;
  add_user user_id name ;;;
  send_to_powerapp user_id (Some name) 0 (Some 0) "" "".

Definition prefixes : list string := ["Service Feedback :"; "Action Feedback :"].

Definition list_type_of_prefix (prefix : string) : string :=
  if PyStr.contains "Service" prefix then "service" else "action".

Definition list_type_of_data (data : string) : string :=
  if PyStr.contains "service feedback:" data then "service" else "action".

Definition thanks : string := "Thanks for your feedback!".

Definition thanks_score (fb : Z) : string :=
  "Thanks for your feedback: " +:+ PyStr.str_of_int fb +:+ "/5!".

Definition hello (name : string) : string := "Hello " +:+ name +:+ "!".

End Handlers.

(** [match.group(n)] as a string. Every group of the two patterns takes
    part in every match, so the default is never used. *)
Definition group_str (n : nat) (g : Re.captures) : string :=
  default "" (Re.group n g).

(** How an f-string shows [display_name]. *)
Definition fmt_name (name : option string) : string :=
  default "None" name.

(** [handler.handle(body, signature)] of the SDK: the signature is checked
    first; then each event goes to the function registered for its kind, one
    after the other, and events of other kinds are skipped. An exception
    raised by a handler is not caught here. *)
Fixpoint dispatch_all (handle : Event -> Py unit) (evs : list Event) : Py unit :=
  match evs with
  | [] => ret tt
  | ev :: rest => handle ev ;;; dispatch_all handle rest
  end.

Definition handler_handle (handle : Event -> Py unit) (req : Request) : Py unit :=
  if signature_valid req then dispatch_all handle (events req)
  else raise InvalidSignatureError.

(** ** [line_bot3.py] *)

Module Bot3.

(** The [for prefix in [...]] loop of [handle_message]; it is entered with
    a display name that is true. *)
Fixpoint feedback_loop (P : Platform) (user_id : string) (name : option string)
    (msg reply_token : string) (ps : list string) : Py unit :=
  match ps with
  | [] => ret tt
  | prefix :: rest =>
      if PyStr.contains prefix msg then
        let lt := list_type_of_prefix prefix in
        let m := Re.search text_pattern msg in
        record_id <- get_last_record_id user_id ;;
        match m with
        | Some g =>
            send_to_powerapp P user_id name 0 record_id (group_str 1 g) lt ;;;
            reply_message P reply_token thanks
        | None => ret tt
        end
      else feedback_loop P user_id name msg reply_token rest
  end.

Definition handle_message (P : Platform) (user_id msg reply_token : string) : Py unit :=
  reload_if_empty ;;;
  name <- get_display_name user_id ;;
  if negb (truthy name) then bootstrap P user_id
  else if String.eqb (PyStr.lower msg) "hello" then
    reply_message P reply_token (hello (fmt_name name))
  else feedback_loop P user_id name msg reply_token prefixes.

Definition handle_postback (P : Platform) (user_id data0 reply_token : string) : Py unit :=
  name <- get_display_name user_id ;;
  let data := PyStr.lower data0 in
  let lt := list_type_of_data data in
  match Re.search postback_pattern data with
  | Some g =>
      let fb := PyStr.int (group_str 2 g) in
      let record_id := PyStr.int (group_str 3 g) in
      send_to_powerapp P user_id name fb (Some record_id) "-" lt ;;;
      reply_message P reply_token (thanks_score fb) ;;;
      update_last_record_id user_id record_id
  | None => ret tt
  end.

Definition handle (P : Platform) (ev : Event) : Py unit :=
  match ev with
  | MessageEvent u msg tok => handle_message P u msg tok
  | PostbackEvent u data tok => handle_postback P u data tok
  | OtherEvent => ret tt
  end.

(** No [try] around [handler.handle]: whatever it raises leaves the view
    function. *)
Definition webhook (P : Platform) (req : Request) : Py string :=
  handler_handle (handle P) req ;;;
  ret "OK".

End Bot3.

(** ** [line_bot7.py] *)

Module Bot7.

Fixpoint feedback_loop (P : Platform) (user_id : string) (name : option string)
    (msg reply_token : string) (ps : list string) : Py unit :=
  match ps with
  | [] => ret tt
  | prefix :: rest =>
      if PyStr.contains prefix msg then
        let lt := list_type_of_prefix prefix in
        let m := Re.search text_pattern msg in
        record_id <- get_last_record_id user_id ;;
        match m with
        | Some g =>
            reply_message P reply_token thanks ;;;
            send_to_powerapp P user_id name 0 record_id (group_str 1 g) lt
        | None => ret tt
        end
      else feedback_loop P user_id name msg reply_token rest
  end.

Definition handle_message (P : Platform) (user_id msg reply_token : string) : Py unit :=
  reload_if_empty ;;;
  name <- get_display_name user_id ;;
  if negb (truthy name) then bootstrap P user_id
  else if String.eqb (PyStr.lower msg) "hello" then
    reply_message P reply_token (hello (fmt_name name))
  else feedback_loop P user_id name msg reply_token prefixes.

Definition handle_postback (P : Platform) (user_id data0 reply_token : string) : Py unit :=
  name <- get_display_name user_id ;;
  let data := PyStr.lower data0 in
  let lt := list_type_of_data data in
  match Re.search postback_pattern data with
  | Some g =>
      let fb := PyStr.int (group_str 2 g) in
      let record_id := PyStr.int (group_str 3 g) in
      reply_message P reply_token (thanks_score fb) ;;;
      update_last_record_id user_id record_id ;;;
      send_to_powerapp P user_id name fb (Some record_id) "-" lt
  | None => ret tt
  end.

Definition handle (P : Platform) (ev : Event) : Py unit :=
  match ev with
  | MessageEvent u msg tok => handle_message P u msg tok
  | PostbackEvent u data tok => handle_postback P u data tok
  | OtherEvent => ret tt
  end.

(** [try: handler.handle(...) except InvalidSignatureError: abort(400)] *)
Definition webhook (P : Platform) (req : Request) : Py string :=
  try_except (handler_handle (handle P) req)
    (fun e => match e with InvalidSignatureError => true | _ => false end)
    (raise (HTTPException 400)) ;;;
  ret "OK".

End Bot7.

(** * Vocabulary of the properties *)

(** After [update_last_record_id user_id record_id] returned, a read of the
    cache gives what the table holds for that user, if the table has a row
    for it. *)
Definition write_through (w : World) (user_id : string) (record_id : Z) : Prop :=
  let w' := (update_last_record_id user_id record_id w).2 in
  (update_last_record_id user_id record_id w).1 = Val tt →
  ∀ row, users w' !! user_id = Some row →
    (get_last_record_id user_id w').1 = Val (last_record_id row).

(** What the first message of a new user leaves behind. *)
Definition bootstrapped (u name : string) (w w' : World) : Prop :=
  users w' = <[u := mkUser name None]> (users w) ∧
  size (users w') = S (size (users w)) ∧
  user_cache w' !! u = Some (mkUser name None) ∧
  trace w' = trace w ++ [GetProfile u;
                         PostForward (mkForward u (Some name) 0 (Some 0) "" "")].

(** Neither the cache nor the set of user ids in the table changed. *)
Definition no_user_created (w w' : World) : Prop :=
  user_cache w' = user_cache w ∧ dom (users w') = dom (users w).

(** A property of worlds that a computation keeps, whatever it returns. *)
Definition preserves {A} (I : World → Prop) (m : Py A) : Prop :=
  ∀ w, I w → I (m w).2.

(** The invariant of a postback for user [u]: [u] has no cache entry, cache
    and set of stored ids are those of [w0], no profile fetch was added. *)
Definition unknown_inv (u : string) (w0 w : World) : Prop :=
  user_cache w !! u = None ∧
  no_user_created w0 w ∧
  (∀ v, GetProfile v ∈ trace w → GetProfile v ∈ trace w0).

(** The forward calls of a trace, and its replies (token and text), each in
    the order they were made. *)
Definition forwards (tr : list Effect) : list ForwardCall :=
  omap (fun e => match e with PostForward c => Some c | _ => None end) tr.

Definition replies (tr : list Effect) : list (string * string) :=
  omap (fun e => match e with ReplyMessage tok text => Some (tok, text) | _ => None end) tr.

(** Same cache, same table, same forward calls and same replies. *)
Definition sim (w3 w7 : World) : Prop :=
  user_cache w3 = user_cache w7 ∧
  users w3 = users w7 ∧
  forwards (trace w3) = forwards (trace w7) ∧
  replies (trace w3) = replies (trace w7).

(** What the specification says of the two files: the same outcome of the
    endpoint and the same state and calls, for every request. *)
Definition same_behaviour {A} (o3 o7 : Result A * World) : Prop :=
  o3.1 = o7.1 ∧ sim o3.2 o7.2.

(** Two runs agree: one returns exactly when the other does, and then the
    worlds they leave are similar. *)
Definition agree (o3 o7 : Result unit * World) : Prop :=
  (o3.1 = Val tt ↔ o7.1 = Val tt) ∧ (o3.1 = Val tt → sim o3.2 o7.2).

(** Every character of [s] is in the class [p]. *)
Fixpoint all_chars (p : ascii → bool) (s : string) : bool :=
  match s with
  | EmptyString => true
  | String c s' => p c && all_chars p s'
  end.

(** ** Worlds, platforms and texts of the examples *)

(** A platform that answers every call. *)
Definition platform_ok : Platform :=
  mkPlatform (fun _ => Some "Alice") (fun _ => true) (fun _ _ => true).

(** A platform whose downstream endpoint is down. *)
Definition platform_post_down : Platform :=
  mkPlatform (fun _ => Some "Alice") (fun _ => false) (fun _ _ => true).

Definition world_empty : World := mkWorld ∅ ∅ [].

(** Alice in the cache and in the table. *)
Definition world_alice (last : option Z) : World :=
  mkWorld {[ "U1" := mkUser "Alice" last ]} {[ "U1" := mkUser "Alice" last ]} [].

(** A cache that holds Bob only, over a table that holds Alice and Bob. *)
Definition world_row_without_entry : World :=
  mkWorld {[ "U2" := mkUser "Bob" None ]}
          {[ "U1" := mkUser "Alice" None; "U2" := mkUser "Bob" None ]}
          [].

(** After a reset of the cache, with Alice in the table. *)
Definition world_reset : World :=
  mkWorld ∅ {[ "U1" := mkUser "Alice" None ]} [].

(** A user with an empty display name in the cache and in the table, and
    record id 123 in both. *)
Definition world_nameless : World :=
  mkWorld {[ "U1" := mkUser "" (Some 123) ]} {[ "U1" := mkUser "" (Some 123) ]} [].

Definition service_text : string := "Service Feedback : great service".

Definition service_payload : string := "Service Feedback: 4  ( id : 123".

(** ** Vocabulary of the properties of whole runs *)

(** Every user id that has a row has a cache entry. *)
Definition stored_cached (w : World) : Prop :=
  dom (users w) ⊆ dom (user_cache w).

(** A property of worlds that does not look at the trace. *)
Definition trace_blind (I : World → Prop) : Prop :=
  ∀ w tr, I w → I (mkWorld (user_cache w) (users w) tr).

Definition is_fetch (e : Effect) : bool :=
  match e with GetProfile _ => true | _ => false end.

(** A property of worlds that a forward or a reply added to the trace does
    not disturb. *)
Definition calls_blind (I : World → Prop) : Prop :=
  ∀ w e, is_fetch e = false → I w →
    I (mkWorld (user_cache w) (users w) (trace w ++ [e])).

(** Every row of [w0] is still there in [w], under the same display name. *)
Definition rows_kept (w0 w : World) : Prop :=
  ∀ u row, users w0 !! u = Some row →
    ∃ row', users w !! u = Some row' ∧ display_name row' = display_name row.

(** Cache and table of [w] are those of [w0], and every profile fetch in
    the trace of [w] was in the trace of [w0] already. *)
Definition state_kept (w0 w : World) : Prop :=
  user_cache w = user_cache w0 ∧
  users w = users w0 ∧
  (∀ v, GetProfile v ∈ trace w → GetProfile v ∈ trace w0).

(** What a postback of user [u] can change: nothing of another user, no key
    of the cache or the table, no display name. *)
Definition only_last_of (u : string) (w0 w : World) : Prop :=
  (∀ v, v ≠ u → user_cache w !! v = user_cache w0 !! v ∧
                users w !! v = users w0 !! v) ∧
  display_name <$> user_cache w !! u = display_name <$> user_cache w0 !! u ∧
  display_name <$> users w !! u = display_name <$> users w0 !! u.

(** The requests a process serves: the webhook and the administrative
    delete. *)
Inductive Call : Type :=
| Webhook (req : Request)
| DeleteAllUsers.

Definition serve (webhook : Platform → Request → Py string) (P : Platform)
    (w : World) (c : Call) : World :=
  match c with
  | Webhook req => (webhook P req w).2
  | DeleteAllUsers => (delete_all_users w).2
  end.

(** A process: the import-time start, then the calls one after the other. *)
Definition run (webhook : Platform → Request → Py string) (P : Platform)
    (calls : list Call) (w0 : World) : World :=
  fold_left (serve webhook P) calls (startup w0).2.

(** A computation adds calls to the end of the trace and takes none away;
    among those it adds there are at most [nr] replies and [nf] forwards. *)
Definition emits {A} (m : Py A) (nr nf : nat) : Prop :=
  ∀ w, ∃ new, trace (m w).2 = trace w ++ new ∧
              (List.length (replies new) ≤ nr)%nat ∧
              (List.length (forwards new) ≤ nf)%nat.

(** ** Vocabulary of the properties of the two patterns *)






Definition is_newline (c : ascii) : bool := Ascii.eqb c "010".



(** The list type that the text handler gives a message: that of the first
    of the two prefixes that the message contains. *)
Definition list_type_of_text (msg : string) : option string :=
  if PyStr.contains "Service Feedback :" msg then Some "service"
  else if PyStr.contains "Action Feedback :" msg then Some "action"
  else None.

(** A character that [lower] leaves as it is. *)
Definition is_lower_fixed (c : ascii) : bool := Ascii.eqb (PyStr.lower_char c) c.

(** * Properties *)

(** ** The text primitives *)

Lemma append_cons (a : ascii) (s t : string) :
  String a s +:+ t = String a (s +:+ t).
Proof. reflexivity. Qed.

Lemma append_empty (t : string) : "" +:+ t = t.
Proof. reflexivity. Qed.

Lemma append_empty_r (s : string) : s +:+ "" = s.
Proof. induction s as [|a s IH]; [done |]. by rewrite append_cons, IH. Qed.

Lemma prefix_spec (n h : string) :
  String.prefix n h = true ↔ ∃ post, h = n +:+ post.
Proof.
  revert h. induction n as [|a n IH]; intros h.
  - split; [intros _; by exists h | intros _; by destruct h].
  - destruct h as [|b h]; cbn.
    + split; [done | intros [post Hp]; discriminate Hp].
    + destruct (ascii_dec a b) as [->|Hne].
      * rewrite IH. split; intros [post Hp]; exists post;
          rewrite append_cons in *; congruence.
      * split; [done | intros [post Hp]; rewrite append_cons in Hp; congruence].
Qed.

(** [needle in hay] holds exactly when [hay] is some text, then [needle],
    then some text. *)
Lemma contains_spec (n h : string) :
  PyStr.contains n h = true ↔ ∃ pre post, h = pre +:+ n +:+ post.
Proof.
  induction h as [|b h IH]; cbn [PyStr.contains]; rewrite orb_true_iff, prefix_spec.
  - split.
    + intros [[post Hp] | Hf]; [by exists "", post | discriminate Hf].
    + intros (pre & post & Hp). left. destruct pre as [|a pre].
      * by exists post.
      * rewrite append_cons in Hp. discriminate Hp.
  - rewrite IH. split.
    + intros [[post Hp] | (pre & post & Hp)].
      * by exists "", post.
      * exists (String b pre), post. by rewrite append_cons, Hp.
    + intros (pre & post & Hp). destruct pre as [|a pre].
      * left. by exists post.
      * right. exists pre, post. rewrite append_cons in Hp. congruence.
Qed.

Lemma lower_idempotent (s : string) : PyStr.lower (PyStr.lower s) = PyStr.lower s.
Proof.
  induction s as [|c s IH]; [done |]. cbn [PyStr.lower]. rewrite IH. f_equal.
  destruct c as [[] [] [] [] [] [] [] []]; reflexivity.
Qed.




(** A pattern that can only match at a colon is not found before the first
    colon. *)
Lemma search_skip (r : Re.regex) (pre rest : string) :
  (∀ s, Re.match_here r s ≠ None →
        match s with String c _ => Ascii.eqb c ":" = true | EmptyString => False end) →
  all_chars (fun a => negb (Ascii.eqb a ":")) pre = true →
  Re.search r (pre +:+ rest) = Re.search r rest.
Proof.
  intros Hr Hpre. induction pre as [|c pre IH]; [done |].
  cbn [all_chars] in Hpre. apply andb_true_iff in Hpre as [Hc Hpre].
  rewrite append_cons. cbn [Re.search].
  destruct (Re.match_here r (String c (pre +:+ rest))) eqn:Hm.
  - assert (Hn : Re.match_here r (String c (pre +:+ rest)) ≠ None) by by rewrite Hm.
    apply Hr in Hn. by rewrite Hn in Hc.
  - by apply IH.
Qed.

Lemma text_pattern_starts_at_colon (s : string) :
  Re.match_here text_pattern s ≠ None →
  match s with String c _ => Ascii.eqb c ":" = true | EmptyString => False end.
Proof.
  destruct s as [|c s]; unfold Re.match_here, text_pattern;
    cbn [Re.rmatch Re.strip_prefix]; [done |].
  rewrite Ascii.eqb_sym. by destruct (Ascii.eqb c ":").
Qed.


(** ** Store and cache operations *)

Ltac py_unfold :=
  unfold add_user, update_last_record_id, get_display_name, get_last_record_id,
    load_cache_from_db, reload_if_empty, delete_all_users,
    Sql.insert_or_ignore, Sql.update_last_record_id, Sql.delete_all,
    Sql.select_all, Sql.set_table, get_cache, set_cache, emit,
    bind, ret, raise in *;
  cbn [fst snd user_cache users trace] in *.

Lemma add_user_run (u name : string) (w : World) :
  add_user u name w =
  (Val tt,
   mkWorld (<[u := mkUser name None]> (user_cache w))
     (match users w !! u with
      | Some _ => users w
      | None => <[u := mkUser name None]> (users w)
      end)
     (trace w)).
Proof.
  py_unfold. by destruct (users w !! u).
Qed.

Lemma update_last_record_id_run (u : string) (r : Z) (w : World) :
  update_last_record_id u r w =
  let c := match user_cache w !! u with
           | Some _ => alter (Sql.set_last r) u (user_cache w)
           | None => user_cache w
           end in
  if Sql.fits_integer r
  then (Val tt, mkWorld c (alter (Sql.set_last r) u (users w)) (trace w))
  else (Exc OverflowError, mkWorld c (users w) (trace w)).
Proof.
  py_unfold. destruct w as [c t tr]; cbn.
  destruct (c !! u); cbn; by destruct (Sql.fits_integer r).
Qed.

(** The definition that [line_bot3.py] gives first writes the cache only; the
    one in force writes the same cache and the table as well. *)
Lemma update_last_record_id_shadowed_run (u : string) (r : Z) (w : World) :
  users (update_last_record_id_shadowed u r w).2 = users w ∧
  user_cache (update_last_record_id_shadowed u r w).2 =
    user_cache (update_last_record_id u r w).2.
Proof.
  rewrite update_last_record_id_run. unfold update_last_record_id_shadowed.
  py_unfold. destruct w as [c t tr]; cbn.
  destruct (c !! u); by destruct (Sql.fits_integer r).
Qed.

Lemma startup_run (w : World) :
  startup w = (Val tt, mkWorld (users w) (users w) (trace w)).
Proof. reflexivity. Qed.

(** [C5] [add_user] is idempotent on the table: called twice for one user
    id, neither call raises, the second call leaves the table as the first
    one left it (its name argument is ignored), and the table holds one row
    for that id, carrying the name the id had first: the first call's name
    when the id was new. *)
Theorem add_user_idempotent (w : World) (u n1 n2 : string) :
  let w1 := (add_user u n1 w).2 in
  let w2 := (add_user u n2 w1).2 in
  (add_user u n1 w).1 = Val tt ∧
  (add_user u n2 w1).1 = Val tt ∧
  users w2 = users w1 ∧
  users w2 !! u =
    Some (match users w !! u with
          | Some row => row
          | None => mkUser n1 None
          end) ∧
  dom (users w2) = {[u]} ∪ dom (users w) ∧
  (users w !! u = None → size (users w2) = S (size (users w))).
Proof.
  cbn zeta. rewrite !add_user_run. cbn [fst snd users user_cache].
  destruct (users w !! u) as [row|] eqn:Hrow.
  - rewrite Hrow. repeat split; try done.
    apply elem_of_dom_2 in Hrow. symmetry. apply subseteq_union_1_L.
    by apply singleton_subseteq_l.
  - rewrite lookup_insert_eq. repeat split.
    + apply lookup_insert_eq.
    + apply dom_insert_L.
    + intros _. by apply map_size_insert_None.
Qed.

(** ** The write-through of [last_record_id] *)

(** [C1], as the specification words it, fails for a user that has a row
    but no cache entry: the row takes the new id, the cache still answers
    [None]. *)
Lemma write_through_fails_without_entry :
  ¬ write_through world_row_without_entry "U1" 123.
Proof.
  unfold write_through. intros H.
  specialize (H eq_refl (mkUser "Alice" (Some 123)) eq_refl).
  vm_compute in H. discriminate H.
Qed.

(** [C1] For a user id that the cache holds, [update_last_record_id] sets
    the cache entry in the same call that writes the table, and before it:
    whatever the call returns, a read of the cache gives the new id, and
    when the call returned and the table has a row for the user, that row
    holds the same id. *)
Theorem write_through_cached (w : World) (u : string) (r : Z) :
  is_Some (user_cache w !! u) →
  let w' := (update_last_record_id u r w).2 in
  (get_last_record_id u w').1 = Val (Some r) ∧
  write_through w u r ∧
  (∀ row, (update_last_record_id u r w).1 = Val tt →
     users w' !! u = Some row → last_record_id row = Some r).
Proof.
  intros [e He]. unfold write_through. cbn zeta.
  rewrite update_last_record_id_run, He. cbn zeta.
  assert (Hc : (alter (Sql.set_last r) u (user_cache w) !! u
                ≫= last_record_id) = Some r).
  { by rewrite lookup_alter_eq, He. }
  assert (Hrow : ∀ row, alter (Sql.set_last r) u (users w) !! u = Some row →
                 last_record_id row = Some r).
  { intros row. rewrite lookup_alter_eq.
    destruct (users w !! u); cbn; [|done]. by intros [= <-]. }
  destruct (Sql.fits_integer r); cbn [fst snd users user_cache];
    unfold get_last_record_id, get_cache, bind, ret; cbn [fst snd user_cache];
    rewrite Hc; repeat split; try done.
  - intros _ row Hr. by rewrite (Hrow row Hr).
  - intros row _. apply Hrow.
Qed.

Lemma write_through_cached_witness :
  (get_last_record_id "U2"
     (update_last_record_id "U2" 123 world_row_without_entry).2).1
  = Val (Some 123).
Proof.
  apply (write_through_cached world_row_without_entry "U2" 123).
  vm_compute. eauto.
Defined.

(** ** Running the handlers *)

Lemma reload_if_empty_run (w : World) :
  reload_if_empty w =
  (Val tt,
   mkWorld (if decide (user_cache w = ∅) then users w else user_cache w)
     (users w) (trace w)).
Proof.
  py_unfold. destruct w as [c t tr]; cbn. by destruct (decide (c = ∅)).
Qed.

Lemma reload_if_empty_hit (w : World) (u : string) (e : UserRecord) :
  user_cache w !! u = Some e → reload_if_empty w = (Val tt, w).
Proof.
  intros He. rewrite reload_if_empty_run. destruct w as [c t tr]; cbn in *.
  destruct (decide (c = ∅)) as [->|]; [|done]. by rewrite lookup_empty in He.
Qed.

Lemma send_to_powerapp_run (P : Platform) u name fb rid txt lt (w : World) :
  send_to_powerapp P u name fb rid txt lt w =
  (if post_ok P (mkForward u name fb rid txt lt) then Val tt
   else Exc RequestException,
   mkWorld (user_cache w) (users w)
     (trace w ++ [PostForward (mkForward u name fb rid txt lt)])).
Proof.
  unfold send_to_powerapp, emit, bind, ret, raise. cbn.
  by destruct (post_ok P _).
Qed.

Lemma reply_message_run (P : Platform) tok text (w : World) :
  reply_message P tok text w =
  (if reply_ok P tok text then Val tt else Exc LineBotApiError,
   mkWorld (user_cache w) (users w) (trace w ++ [ReplyMessage tok text])).
Proof.
  unfold reply_message, emit, bind, ret, raise. cbn.
  by destruct (reply_ok P _ _).
Qed.

Lemma bootstrap_run (P : Platform) (u name : string) (w : World) :
  profile_of P u = Some name →
  bootstrap P u w =
  (if post_ok P (mkForward u (Some name) 0 (Some 0) "" "") then Val tt
   else Exc RequestException,
   mkWorld (<[u := mkUser name None]> (user_cache w))
     (match users w !! u with
      | Some _ => users w
      | None => <[u := mkUser name None]> (users w)
      end)
     (trace w ++ [GetProfile u;
                  PostForward (mkForward u (Some name) 0 (Some 0) "" "")])).
Proof.
  intros Hp. unfold bootstrap, get_profile, emit, bind at 1 2 3.
  cbn [fst snd]. rewrite Hp. unfold ret at 1. unfold bind.
  rewrite add_user_run, send_to_powerapp_run. cbn [user_cache users trace].
  by rewrite <- app_assoc.
Qed.

Lemma bootstrap_fail (P : Platform) (u : string) (w : World) :
  profile_of P u = None →
  bootstrap P u w =
  (Exc LineBotApiError,
   mkWorld (user_cache w) (users w) (trace w ++ [GetProfile u])).
Proof.
  intros Hp. unfold bootstrap, get_profile, emit, bind, raise.
  cbn [fst snd]. by rewrite Hp.
Qed.

Lemma handle_message3_run (P : Platform) (u msg tok : string) (w : World) :
  Bot3.handle_message P u msg tok w =
  let w1 := (reload_if_empty w).2 in
  let name := display_name <$> user_cache w1 !! u in
  if negb (truthy name) then bootstrap P u w1
  else if String.eqb (PyStr.lower msg) "hello"
       then reply_message P tok (hello (fmt_name name)) w1
       else Bot3.feedback_loop P u name msg tok prefixes w1.
Proof.
  unfold Bot3.handle_message. unfold bind at 1.
  pose proof (reload_if_empty_run w) as Hr.
  destruct (reload_if_empty w) as [r w1]. injection Hr as -> ->.
  unfold get_display_name, get_cache, bind, ret. cbn [fst snd user_cache].
  destruct (negb _); [done|]. by destruct (String.eqb _ _).
Qed.

Lemma handle_message7_run (P : Platform) (u msg tok : string) (w : World) :
  Bot7.handle_message P u msg tok w =
  let w1 := (reload_if_empty w).2 in
  let name := display_name <$> user_cache w1 !! u in
  if negb (truthy name) then bootstrap P u w1
  else if String.eqb (PyStr.lower msg) "hello"
       then reply_message P tok (hello (fmt_name name)) w1
       else Bot7.feedback_loop P u name msg tok prefixes w1.
Proof.
  unfold Bot7.handle_message. unfold bind at 1.
  pose proof (reload_if_empty_run w) as Hr.
  destruct (reload_if_empty w) as [r w1]. injection Hr as -> ->.
  unfold get_display_name, get_cache, bind, ret. cbn [fst snd user_cache].
  destruct (negb _); [done|]. by destruct (String.eqb _ _).
Qed.

Lemma truthy_name (e : UserRecord) :
  display_name e ≠ "" → truthy (Some (display_name e)) = true.
Proof. by destruct (display_name e). Qed.

(** ** First contact *)

(** [C4] A text message from a user id that neither the cache nor the table
    holds, whose profile the platform returns: the table gets one new row,
    with that id, the fetched name and no [last_record_id], the other rows
    stay; the calls made are the profile fetch and one forward with
    feedback 0, record id 0, empty text and empty list type, and no reply.
    Both files do the same. *)
Theorem first_message_bootstraps (P : Platform) (w : World)
    (u msg tok name : string) :
  user_cache w !! u = None →
  users w !! u = None →
  profile_of P u = Some name →
  bootstrapped u name w (Bot3.handle_message P u msg tok w).2 ∧
  bootstrapped u name w (Bot7.handle_message P u msg tok w).2.
Proof.
  intros Hc Ht Hp.
  assert (Hmiss : display_name <$> user_cache (reload_if_empty w).2 !! u = None).
  { rewrite reload_if_empty_run. cbn.
    destruct (decide (user_cache w = ∅)); [by rewrite Ht | by rewrite Hc]. }
  assert (Hb : bootstrapped u name w (bootstrap P u (reload_if_empty w).2).2).
  { rewrite (bootstrap_run P u name _ Hp), reload_if_empty_run.
    unfold bootstrapped. cbn [fst snd users user_cache trace]. rewrite Ht.
    repeat split; [by apply map_size_insert_None | apply lookup_insert_eq]. }
  rewrite handle_message3_run, handle_message7_run. cbn zeta.
  by rewrite Hmiss.
Qed.

Lemma first_message_bootstraps_witness :
  bootstrapped "U1" "Alice" world_empty
    (Bot3.handle_message platform_ok "U1" "hi" "tok" world_empty).2.
Proof.
  apply (first_message_bootstraps platform_ok world_empty "U1" "hi" "tok" "Alice");
    reflexivity.
Defined.

(** ** Greeting *)

(** [C8] A text message whose lower-cased text is "hello", from a user the
    cache holds with a non-empty display name: the only call made is one
    reply, "Hello <display name>!", and the cache and the table are the ones
    from before; in particular there is no forward. Both files do the
    same. *)
Theorem hello_only_replies (P : Platform) (w : World) (u msg tok : string)
    (e : UserRecord) :
  user_cache w !! u = Some e →
  display_name e ≠ "" →
  PyStr.lower msg = "hello" →
  let w' := mkWorld (user_cache w) (users w)
              (trace w ++ [ReplyMessage tok ("Hello " +:+ display_name e +:+ "!")]) in
  (Bot3.handle_message P u msg tok w).2 = w' ∧
  (Bot7.handle_message P u msg tok w).2 = w'.
Proof.
  intros He Hname Hmsg. cbn zeta.
  rewrite handle_message3_run, handle_message7_run.
  rewrite (reload_if_empty_hit w u e He). cbn [snd]. cbn zeta.
  rewrite He. cbn [fmap option_fmap option_map].
  rewrite (truthy_name e Hname), Hmsg. cbn [negb String.eqb Ascii.eqb Bool.eqb].
  by rewrite reply_message_run.
Qed.

Lemma hello_only_replies_witness :
  (Bot3.handle_message platform_ok "U1" "HeLLo" "tok" (world_alice None)).2
  = mkWorld (user_cache (world_alice None)) (users (world_alice None))
      [ReplyMessage "tok" "Hello Alice!"].
Proof.
  apply (hello_only_replies platform_ok (world_alice None) "U1" "HeLLo" "tok"
           (mkUser "Alice" None));
    [reflexivity | discriminate | reflexivity].
Defined.

(** The strings with that lower-cased text are the 32 spellings of "hello"
    in upper and lower case, such as this one. *)
Example lower_hello : PyStr.lower "HELLO" = "hello" ∧ PyStr.lower "hElLo" = "hello".
Proof. split; reflexivity. Qed.

(** ** Free-text feedback *)

Lemma service_text_prefix : PyStr.contains "Service Feedback :" service_text = true.
Proof. reflexivity. Qed.

Lemma service_text_search :
  Re.search text_pattern service_text = Some [(1%nat, "great service")].
Proof. reflexivity. Qed.

Lemma service_text_not_hello : String.eqb (PyStr.lower service_text) "hello" = false.
Proof. reflexivity. Qed.

(** [C7] [line_bot3.py], text message "Service Feedback : great service"
    from a user the cache holds with a non-empty display name and
    [last_record_id] 123, the downstream POST going through: one forward
    with feedback 0, record id 123, text "great service" (what follows the
    first colon and the blank after it) and list type "service", then the
    reply "Thanks for your feedback!"; cache and table stay as they were. *)
Theorem text_feedback_forwarded (P : Platform) (w : World) (u tok : string)
    (e : UserRecord) :
  user_cache w !! u = Some e →
  display_name e ≠ "" →
  last_record_id e = Some 123 →
  let call := mkForward u (Some (display_name e)) 0 (Some 123)
                "great service" "service" in
  post_ok P call = true →
  (Bot3.handle_message P u service_text tok w).2 =
  mkWorld (user_cache w) (users w)
    (trace w ++ [PostForward call; ReplyMessage tok "Thanks for your feedback!"]).
Proof.
  intros He Hname Hlast call Hpost.
  rewrite handle_message3_run, (reload_if_empty_hit w u e He).
  cbn [snd]. cbn zeta. rewrite He. cbn [fmap option_fmap option_map].
  rewrite (truthy_name e Hname), service_text_not_hello. cbn [negb].
  unfold prefixes. cbn [Bot3.feedback_loop].
  rewrite service_text_prefix, service_text_search.
  unfold get_last_record_id, get_cache, bind, ret. cbn [fst snd user_cache].
  rewrite He. cbn [mbind option_bind]. rewrite Hlast.
  rewrite send_to_powerapp_run.
  change (mkForward u (Some (display_name e)) 0 (Some 123)
            (group_str 1 [(1%nat, "great service")])
            (list_type_of_prefix "Service Feedback :")) with call.
  rewrite Hpost, reply_message_run. cbn [fst snd user_cache users trace].
  by rewrite <- app_assoc.
Qed.

Lemma text_feedback_forwarded_witness :
  (Bot3.handle_message platform_ok "U1" service_text "tok"
     (world_alice (Some 123))).2 =
  mkWorld (user_cache (world_alice (Some 123))) (users (world_alice (Some 123)))
    [PostForward (mkForward "U1" (Some "Alice") 0 (Some 123) "great service" "service");
     ReplyMessage "tok" "Thanks for your feedback!"].
Proof.
  apply (text_feedback_forwarded platform_ok (world_alice (Some 123)) "U1" "tok"
           (mkUser "Alice" (Some 123)));
    [reflexivity | discriminate | reflexivity | reflexivity].
Defined.

(** ** Postback feedback *)

Lemma service_payload_lower :
  PyStr.lower service_payload = "service feedback: 4  ( id : 123".
Proof. reflexivity. Qed.

Lemma service_payload_search :
  Re.search postback_pattern (PyStr.lower service_payload) =
  Some [(3%nat, "123"); (2%nat, "4"); (1%nat, "feedback")].
Proof. reflexivity. Qed.

Lemma service_payload_list_type :
  list_type_of_data (PyStr.lower service_payload) = "service".
Proof. reflexivity. Qed.

Lemma handle_postback3_match (P : Platform) (u data tok : string) (w : World)
    (g : Re.captures) :
  Re.search postback_pattern (PyStr.lower data) = Some g →
  Bot3.handle_postback P u data tok w =
  let name := display_name <$> user_cache w !! u in
  let fb := PyStr.int (group_str 2 g) in
  let rid := PyStr.int (group_str 3 g) in
  (send_to_powerapp P u name fb (Some rid) "-"
     (list_type_of_data (PyStr.lower data)) ;;;
   reply_message P tok (thanks_score fb) ;;;
   update_last_record_id u rid) w.
Proof.
  intros Hg. unfold Bot3.handle_postback, get_display_name, get_cache.
  unfold bind at 1 2. unfold ret at 1. cbn [fst snd]. by rewrite Hg.
Qed.

Lemma handle_postback7_match (P : Platform) (u data tok : string) (w : World)
    (g : Re.captures) :
  Re.search postback_pattern (PyStr.lower data) = Some g →
  Bot7.handle_postback P u data tok w =
  let name := display_name <$> user_cache w !! u in
  let fb := PyStr.int (group_str 2 g) in
  let rid := PyStr.int (group_str 3 g) in
  (reply_message P tok (thanks_score fb) ;;;
   update_last_record_id u rid ;;;
   send_to_powerapp P u name fb (Some rid) "-"
     (list_type_of_data (PyStr.lower data))) w.
Proof.
  intros Hg. unfold Bot7.handle_postback, get_display_name, get_cache.
  unfold bind at 1 2. unfold ret at 1. cbn [fst snd]. by rewrite Hg.
Qed.

Lemma handle_postback_no_match (P : Platform) (u data tok : string) (w : World) :
  Re.search postback_pattern (PyStr.lower data) = None →
  Bot3.handle_postback P u data tok w = (Val tt, w) ∧
  Bot7.handle_postback P u data tok w = (Val tt, w).
Proof.
  intros Hg.
  unfold Bot3.handle_postback, Bot7.handle_postback, get_display_name, get_cache.
  unfold bind, ret. cbn [fst snd]. by rewrite Hg.
Qed.

(** [C6] Postback "Service Feedback: 4  ( id : 123" from a user the cache
    holds, the downstream POST and the reply going through. The lower-cased
    payload matches the pattern with score 4 and record id 123 and gives
    list type "service". Both files forward (score 4, record id 123, text
    "-", list type "service"), reply "Thanks for your feedback: 4/5!" and
    set the user's [last_record_id] to 123 in the cache and in the table;
    [line_bot3.py] forwards first, [line_bot7.py] replies first. *)
Theorem postback_feedback_recorded (P : Platform) (w : World) (u tok : string)
    (e : UserRecord) :
  user_cache w !! u = Some e →
  let call := mkForward u (Some (display_name e)) 4 (Some 123) "-" "service" in
  let reply := ReplyMessage tok "Thanks for your feedback: 4/5!" in
  let cache' := <[u := mkUser (display_name e) (Some 123)]> (user_cache w) in
  let users' := alter (Sql.set_last 123) u (users w) in
  post_ok P call = true →
  reply_ok P tok "Thanks for your feedback: 4/5!" = true →
  (∃ g, Re.search postback_pattern (PyStr.lower service_payload) = Some g ∧
        PyStr.int (group_str 2 g) = 4 ∧ PyStr.int (group_str 3 g) = 123) ∧
  list_type_of_data (PyStr.lower service_payload) = "service" ∧
  Bot3.handle_postback P u service_payload tok w =
    (Val tt, mkWorld cache' users' (trace w ++ [PostForward call; reply])) ∧
  Bot7.handle_postback P u service_payload tok w =
    (Val tt, mkWorld cache' users' (trace w ++ [reply; PostForward call])).
Proof.
  intros He call reply cache' users' Hpost Hreply.
  subst call reply cache' users'.
  assert (Hcache : alter (Sql.set_last 123) u (user_cache w) =
                   <[u := mkUser (display_name e) (Some 123)]> (user_cache w)).
  { apply map_eq. intros k.
    destruct (decide (k = u)) as [->|Hne].
    - by rewrite lookup_alter_eq, lookup_insert_eq, He.
    - by rewrite lookup_alter_ne, lookup_insert_ne. }
  split; [eexists; split; [apply service_payload_search | by split] |].
  split; [apply service_payload_list_type |].
  rewrite (handle_postback3_match P u _ tok w _ service_payload_search).
  rewrite (handle_postback7_match P u _ tok w _ service_payload_search).
  cbn zeta. rewrite service_payload_list_type, He.
  cbn [fmap option_fmap option_map].
  change (PyStr.int (group_str 2 _)) with 4.
  change (PyStr.int (group_str 3 _)) with 123.
  change (thanks_score 4) with "Thanks for your feedback: 4/5!".
  unfold bind.
  rewrite send_to_powerapp_run, Hpost, !reply_message_run, Hreply.
  rewrite !update_last_record_id_run. cbn [fst snd user_cache users trace].
  rewrite He. cbn zeta.
  change (Sql.fits_integer 123) with true. cbn iota.
  rewrite send_to_powerapp_run, Hpost. cbn [fst snd user_cache users trace].
  rewrite Hcache, <- !app_assoc. by split.
Qed.

Lemma postback_feedback_recorded_witness :
  Bot3.handle_postback platform_ok "U1" service_payload "tok" (world_alice None) =
  (Val tt,
   mkWorld (<["U1" := mkUser "Alice" (Some 123)]> (user_cache (world_alice None)))
     (alter (Sql.set_last 123) "U1" (users (world_alice None)))
     [PostForward (mkForward "U1" (Some "Alice") 4 (Some 123) "-" "service");
      ReplyMessage "tok" "Thanks for your feedback: 4/5!"]).
Proof.
  apply (postback_feedback_recorded platform_ok (world_alice None) "U1" "tok"
           (mkUser "Alice" None));
    reflexivity.
Defined.

(** ** Postback from a user the cache does not hold *)

Lemma no_user_created_alter (w : World) (f : UserRecord → UserRecord)
    (u : string) (tr : list Effect) :
  no_user_created w (mkWorld (user_cache w) (alter f u (users w)) tr).
Proof. split; [done | apply dom_alter_L]. Qed.

Lemma no_user_created_trace (w : World) (tr : list Effect) :
  no_user_created w (mkWorld (user_cache w) (users w) tr).
Proof. by split. Qed.

(** [C3], as the specification words it, fails: a postback that matches the
    pattern, from a user with no cache entry, is not dropped. It is
    forwarded with no display name and answered, and a row that the table
    has for the user takes the record id. *)
Lemma unknown_postback_not_dropped :
  user_cache world_row_without_entry !! "U1" = None ∧
  Bot3.handle_postback platform_ok "U1" service_payload "tok"
    world_row_without_entry =
  (Val tt,
   mkWorld {[ "U2" := mkUser "Bob" None ]}
     {[ "U1" := mkUser "Alice" (Some 123); "U2" := mkUser "Bob" None ]}
     [PostForward (mkForward "U1" None 4 (Some 123) "-" "service");
      ReplyMessage "tok" "Thanks for your feedback: 4/5!"]) ∧
  Bot3.handle_postback platform_ok "U1" service_payload "tok"
    world_row_without_entry ≠ (Val tt, world_row_without_entry).
Proof.
  split; [reflexivity |].
  assert (H : Bot3.handle_postback platform_ok "U1" service_payload "tok"
                world_row_without_entry =
              (Val tt,
               mkWorld {[ "U2" := mkUser "Bob" None ]}
                 {[ "U1" := mkUser "Alice" (Some 123); "U2" := mkUser "Bob" None ]}
                 [PostForward (mkForward "U1" None 4 (Some 123) "-" "service");
                  ReplyMessage "tok" "Thanks for your feedback: 4/5!"])).
  { vm_compute. reflexivity. }
  split; [exact H |]. rewrite H. intros Heq. discriminate Heq.
Qed.

Lemma preserves_ret {A} (I : World → Prop) (a : A) : preserves I (ret a).
Proof. by intros w. Qed.

Lemma preserves_raise {A} (I : World → Prop) (e : exn) :
  preserves I (raise (A := A) e).
Proof. by intros w. Qed.

Lemma preserves_bind {A B} (I : World → Prop) (m : Py A) (k : A → Py B) :
  preserves I m → (∀ a, preserves I (k a)) → preserves I (bind m k).
Proof.
  intros Hm Hk w Hw. unfold bind. specialize (Hm w Hw).
  destruct (m w) as [[a|e] w1]; cbn [snd] in *; [by apply Hk | done].
Qed.

Lemma unknown_inv_init (u : string) (w : World) :
  user_cache w !! u = None → unknown_inv u w w.
Proof. by repeat split. Qed.

Lemma unknown_inv_update (u : string) (w0 : World) (r : Z) :
  preserves (unknown_inv u w0) (update_last_record_id u r).
Proof.
  intros w (Hc & [Hcache Hdom] & Htr). rewrite update_last_record_id_run, Hc.
  cbn zeta. destruct (Sql.fits_integer r); cbn [snd];
    repeat split; cbn [user_cache users trace]; try done.
  by rewrite dom_alter_L.
Qed.

Lemma unknown_inv_get_display_name (u v : string) (w0 : World) :
  preserves (unknown_inv u w0) (get_display_name v).
Proof. by intros w. Qed.

Lemma unknown_inv_send (P : Platform) (u : string) (w0 : World)
    v name fb rid txt lt :
  preserves (unknown_inv u w0) (send_to_powerapp P v name fb rid txt lt).
Proof.
  intros w (Hc & Hn & Htr). rewrite send_to_powerapp_run. cbn [snd].
  repeat split; cbn [user_cache users trace]; try done; try apply Hn.
  intros x [Hx | Hx]%elem_of_app; [by apply Htr |].
  apply list_elem_of_singleton in Hx. discriminate Hx.
Qed.

Lemma unknown_inv_reply (P : Platform) (u : string) (w0 : World) tok text :
  preserves (unknown_inv u w0) (reply_message P tok text).
Proof.
  intros w (Hc & Hn & Htr). rewrite reply_message_run. cbn [snd].
  repeat split; cbn [user_cache users trace]; try done; try apply Hn.
  intros x [Hx | Hx]%elem_of_app; [by apply Htr |].
  apply list_elem_of_singleton in Hx. discriminate Hx.
Qed.

Lemma unknown_inv_postback3 (P : Platform) (u data tok : string) (w0 : World) :
  preserves (unknown_inv u w0) (Bot3.handle_postback P u data tok).
Proof.
  unfold Bot3.handle_postback.
  apply preserves_bind; [apply unknown_inv_get_display_name | intros name].
  destruct (Re.search _ _); [| apply preserves_ret].
  apply preserves_bind; [apply unknown_inv_send | intros _].
  apply preserves_bind; [apply unknown_inv_reply | intros _].
  apply unknown_inv_update.
Qed.

Lemma unknown_inv_postback7 (P : Platform) (u data tok : string) (w0 : World) :
  preserves (unknown_inv u w0) (Bot7.handle_postback P u data tok).
Proof.
  unfold Bot7.handle_postback.
  apply preserves_bind; [apply unknown_inv_get_display_name | intros name].
  destruct (Re.search _ _); [| apply preserves_ret].
  apply preserves_bind; [apply unknown_inv_reply | intros _].
  apply preserves_bind; [apply unknown_inv_update | intros _].
  apply unknown_inv_send.
Qed.

(** [C3] A postback from a user id that the cache does not hold creates no
    user: [update_last_record_id] leaves the cache as it is, and so does the
    whole handler in both files; no row is added to the table and no profile
    is fetched. *)
Theorem unknown_postback_creates_no_user (P : Platform) (w : World)
    (u data tok : string) (r : Z) :
  user_cache w !! u = None →
  unknown_inv u w (update_last_record_id u r w).2 ∧
  unknown_inv u w (Bot3.handle_postback P u data tok w).2 ∧
  unknown_inv u w (Bot7.handle_postback P u data tok w).2.
Proof.
  intros Hc. pose proof (unknown_inv_init u w Hc) as Hinit.
  split; [by apply unknown_inv_update |].
  split; [by apply unknown_inv_postback3 | by apply unknown_inv_postback7].
Qed.

Lemma unknown_postback_creates_no_user_witness :
  unknown_inv "U1" world_row_without_entry
    (Bot3.handle_postback platform_ok "U1" service_payload "tok"
       world_row_without_entry).2.
Proof.
  apply (unknown_postback_creates_no_user platform_ok world_row_without_entry
           "U1" service_payload "tok" 123).
  reflexivity.
Defined.

(** ** Reloading an empty cache *)

(** The text handler reads the cache only after [reload_if_empty]: on an
    empty cache it behaves as on the cache loaded from the table. *)
Lemma handle_message_reloads (P : Platform) (u msg tok : string) (w : World) :
  user_cache w = ∅ →
  Bot3.handle_message P u msg tok w =
    Bot3.handle_message P u msg tok (mkWorld (users w) (users w) (trace w)) ∧
  Bot7.handle_message P u msg tok w =
    Bot7.handle_message P u msg tok (mkWorld (users w) (users w) (trace w)).
Proof.
  intros Hc. rewrite !handle_message3_run, !handle_message7_run.
  rewrite !reload_if_empty_run. cbn [snd user_cache users trace].
  rewrite Hc. rewrite decide_True by done.
  by destruct (decide (users w = ∅)) as [->|].
Qed.

(** [C2] The postback handler of both files reads the cache without
    reloading it. On an empty cache over a table that holds Alice, her
    postback is forwarded with no display name, the cache is still empty
    afterwards and only the table takes the record id; her text message in
    the same world is answered from the reloaded cache. *)
Theorem postback_skips_reload :
  Bot3.handle_postback platform_ok "U1" service_payload "tok" world_reset =
    (Val tt,
     mkWorld ∅ {[ "U1" := mkUser "Alice" (Some 123) ]}
       [PostForward (mkForward "U1" None 4 (Some 123) "-" "service");
        ReplyMessage "tok" "Thanks for your feedback: 4/5!"]) ∧
  Bot7.handle_postback platform_ok "U1" service_payload "tok" world_reset =
    (Val tt,
     mkWorld ∅ {[ "U1" := mkUser "Alice" (Some 123) ]}
       [ReplyMessage "tok" "Thanks for your feedback: 4/5!";
        PostForward (mkForward "U1" None 4 (Some 123) "-" "service")]) ∧
  Bot3.handle_message platform_ok "U1" "hello" "tok" world_reset =
    (Val tt,
     mkWorld {[ "U1" := mkUser "Alice" None ]} {[ "U1" := mkUser "Alice" None ]}
       [ReplyMessage "tok" "Hello Alice!"]).
Proof.
  repeat split; vm_compute; reflexivity.
Qed.

(** ** A second bootstrap of a user that is already there *)

(** [C10] When [add_user] runs for a user id that the cache and the table
    both hold, the cache entry is replaced by one with the new name and no
    [last_record_id], and the table is left as it was, so its row keeps the
    earlier name and [last_record_id]. The text handler does this to a user
    whose cached display name is the empty string, which it takes for a
    missing one. *)
Theorem add_user_present_resets_cache (w : World) (u name : string)
    (e row : UserRecord) :
  user_cache w !! u = Some e →
  users w !! u = Some row →
  let reset w' :=
    user_cache w' !! u = Some (mkUser name None) ∧
    (get_last_record_id u w').1 = Val None ∧
    users w' = users w ∧
    users w' !! u = Some row in
  reset (add_user u name w).2 ∧
  (display_name e = "" →
   ∀ (P : Platform) (msg tok : string), profile_of P u = Some name →
     reset (Bot3.handle_message P u msg tok w).2 ∧
     reset (Bot7.handle_message P u msg tok w).2).
Proof.
  intros He Hrow. cbn zeta.
  assert (Hadd : ∀ tr,
    user_cache (mkWorld (<[u := mkUser name None]> (user_cache w)) (users w) tr)
      !! u = Some (mkUser name None) ∧
    (get_last_record_id u
       (mkWorld (<[u := mkUser name None]> (user_cache w)) (users w) tr)).1
      = Val None ∧
    users w = users w ∧ users w !! u = Some row).
  { intros tr. unfold get_last_record_id, get_cache, bind, ret.
    cbn [fst snd users user_cache]. by rewrite lookup_insert_eq. }
  split.
  - rewrite add_user_run, Hrow. cbn [snd]. apply Hadd.
  - intros Hname P msg tok Hp.
    rewrite handle_message3_run, handle_message7_run.
    rewrite (reload_if_empty_hit w u e He). cbn [snd]. cbn zeta.
    rewrite He. cbn [fmap option_fmap option_map]. rewrite Hname.
    cbn [truthy negb]. rewrite (bootstrap_run P u name w Hp), Hrow.
    cbn [snd]. split; apply Hadd.
Qed.

Lemma add_user_present_resets_cache_witness :
  (get_last_record_id "U1"
     (Bot3.handle_message platform_ok "U1" "hi" "tok" world_nameless).2).1
    = Val None ∧
  users (Bot3.handle_message platform_ok "U1" "hi" "tok" world_nameless).2 !! "U1"
    = Some (mkUser "" (Some 123)).
Proof.
  destruct (add_user_present_resets_cache world_nameless "U1" "Alice"
              (mkUser "" (Some 123)) (mkUser "" (Some 123))
              eq_refl eq_refl) as [_ H].
  destruct (H eq_refl platform_ok "hi" "tok" eq_refl) as [(_ & H1 & _ & H2) _].
  exact (conj H1 H2).
Defined.

(** ** The two files side by side *)

(** [C9], as the specification words it, fails in two places. On a request
    whose signature does not verify, [line_bot3.py] lets
    [InvalidSignatureError] leave the view function and [line_bot7.py] turns
    it into [abort(400)]. And the two handlers make their calls in different
    orders, which shows when one raises: with the downstream POST failing,
    [line_bot3.py] stops before the reply and the update, [line_bot7.py] has
    replied and recorded the id already. *)
Lemma two_files_differ :
  Bot3.webhook platform_ok (mkRequest false []) world_empty =
    (Exc InvalidSignatureError, world_empty) ∧
  Bot7.webhook platform_ok (mkRequest false []) world_empty =
    (Exc (HTTPException 400), world_empty) ∧
  ¬ same_behaviour (Bot3.webhook platform_ok (mkRequest false []) world_empty)
                   (Bot7.webhook platform_ok (mkRequest false []) world_empty) ∧
  Bot3.handle_postback platform_post_down "U1" service_payload "tok"
    (world_alice None) =
  (Exc RequestException,
   mkWorld {[ "U1" := mkUser "Alice" None ]} {[ "U1" := mkUser "Alice" None ]}
     [PostForward (mkForward "U1" (Some "Alice") 4 (Some 123) "-" "service")]) ∧
  Bot7.handle_postback platform_post_down "U1" service_payload "tok"
    (world_alice None) =
  (Exc RequestException,
   mkWorld {[ "U1" := mkUser "Alice" (Some 123) ]}
     {[ "U1" := mkUser "Alice" (Some 123) ]}
     [ReplyMessage "tok" "Thanks for your feedback: 4/5!";
      PostForward (mkForward "U1" (Some "Alice") 4 (Some 123) "-" "service")]) ∧
  ¬ same_behaviour
      (Bot3.handle_postback platform_post_down "U1" service_payload "tok"
         (world_alice None))
      (Bot7.handle_postback platform_post_down "U1" service_payload "tok"
         (world_alice None)).
Proof.
  split; [reflexivity |]. split; [reflexivity |].
  split; [intros [H _]; vm_compute in H; discriminate H |].
  split; [vm_compute; reflexivity |]. split; [vm_compute; reflexivity |].
  intros [_ (Hc & _)]. vm_compute in Hc. discriminate Hc.
Qed.

Lemma forwards_snoc_forward tr c : forwards (tr ++ [PostForward c]) = forwards tr ++ [c].
Proof. unfold forwards. by rewrite omap_app. Qed.

Lemma forwards_snoc_reply tr tok text :
  forwards (tr ++ [ReplyMessage tok text]) = forwards tr.
Proof. unfold forwards. rewrite omap_app. cbn. by rewrite app_nil_r. Qed.

Lemma forwards_snoc_profile tr u : forwards (tr ++ [GetProfile u]) = forwards tr.
Proof. unfold forwards. rewrite omap_app. cbn. by rewrite app_nil_r. Qed.

Lemma replies_snoc_reply tr tok text :
  replies (tr ++ [ReplyMessage tok text]) = replies tr ++ [(tok, text)].
Proof. unfold replies. by rewrite omap_app. Qed.

Lemma replies_snoc_forward tr c : replies (tr ++ [PostForward c]) = replies tr.
Proof. unfold replies. rewrite omap_app. cbn. by rewrite app_nil_r. Qed.

Lemma replies_snoc_profile tr u : replies (tr ++ [GetProfile u]) = replies tr.
Proof. unfold replies. rewrite omap_app. cbn. by rewrite app_nil_r. Qed.

Create Rewrite HintDb snoc.
Hint Rewrite forwards_snoc_forward forwards_snoc_reply forwards_snoc_profile
  replies_snoc_reply replies_snoc_forward replies_snoc_profile : snoc.

Ltac agree_done :=
  unfold agree, sim; cbn [fst snd user_cache users trace];
  autorewrite with snoc;
  split; [split; congruence | intros; repeat split; congruence].

Lemma agree_same (m : Py unit) (w3 w7 : World) :
  sim w3 w7 →
  (∀ c t tr3 tr7,
     (m (mkWorld c t tr3)).1 = (m (mkWorld c t tr7)).1 ∧
     (forwards tr3 = forwards tr7 → replies tr3 = replies tr7 →
      sim (m (mkWorld c t tr3)).2 (m (mkWorld c t tr7)).2)) →
  agree (m w3) (m w7).
Proof.
  destruct w3 as [c3 t3 tr3], w7 as [c7 t7 tr7].
  intros (Hc & Ht & Hf & Hr) Hm. cbn in Hc, Ht, Hf, Hr. subst c7 t7.
  destruct (Hm c3 t3 tr3 tr7) as [H1 H2]. unfold agree. rewrite H1.
  split; [done | intros _; by apply H2].
Qed.

Lemma bootstrap_agree (P : Platform) (u : string) (w3 w7 : World) :
  sim w3 w7 → agree (bootstrap P u w3) (bootstrap P u w7).
Proof.
  intros Hs. apply agree_same; [done |]. intros c t tr3 tr7.
  destruct (profile_of P u) as [name|] eqn:Hp.
  - rewrite !(bootstrap_run P u name _ Hp). cbn [fst snd user_cache users trace].
    split; [done | intros Hf Hr].
    unfold sim. cbn [user_cache users trace].
    replace [GetProfile u; PostForward (mkForward u (Some name) 0 (Some 0) "" "")]
      with ([GetProfile u] ++ [PostForward (mkForward u (Some name) 0 (Some 0) "" "")])
      by done.
    rewrite !app_assoc. autorewrite with snoc. repeat split; congruence.
  - rewrite !(bootstrap_fail P u _ Hp). cbn [fst snd].
    split; [done | intros Hf Hr].
    unfold sim. cbn [user_cache users trace]. autorewrite with snoc. by repeat split.
Qed.

Lemma reply_agree (P : Platform) (tok text : string) (w3 w7 : World) :
  sim w3 w7 → agree (reply_message P tok text w3) (reply_message P tok text w7).
Proof.
  intros (Hc & Ht & Hf & Hr). rewrite !reply_message_run.
  destruct (reply_ok P tok text); agree_done.
Qed.

Lemma bind_get_last_record_id {A} (u : string) (k : option Z → Py A) (w : World) :
  bind (get_last_record_id u) k w = k (user_cache w !! u ≫= last_record_id) w.
Proof. reflexivity. Qed.

Lemma feedback_loop_agree (P : Platform) (u : string) (name : option string)
    (msg tok : string) (ps : list string) (w3 w7 : World) :
  sim w3 w7 →
  agree (Bot3.feedback_loop P u name msg tok ps w3)
        (Bot7.feedback_loop P u name msg tok ps w7).
Proof.
  intros (Hc & Ht & Hf & Hr). induction ps as [|prefix rest IH].
  - cbn [Bot3.feedback_loop Bot7.feedback_loop]. unfold ret. agree_done.
  - cbn [Bot3.feedback_loop Bot7.feedback_loop].
    destruct (PyStr.contains prefix msg); [| exact IH].
    cbn zeta. rewrite !bind_get_last_record_id, Hc.
    destruct (Re.search text_pattern msg) as [g|]; [| unfold ret; agree_done].
    unfold bind. rewrite send_to_powerapp_run, reply_message_run.
    destruct (post_ok P _) eqn:Hpost, (reply_ok P tok thanks) eqn:Hreply;
      do 3 (cbn [fst snd user_cache users trace];
            rewrite ?send_to_powerapp_run, ?reply_message_run, ?Hpost, ?Hreply);
      agree_done.
Qed.

Lemma reload_sim (w3 w7 : World) :
  sim w3 w7 → sim (reload_if_empty w3).2 (reload_if_empty w7).2.
Proof.
  intros (Hc & Ht & Hf & Hr). rewrite !reload_if_empty_run.
  unfold sim. cbn [snd user_cache users trace]. rewrite Hc, Ht.
  by repeat split.
Qed.

Lemma handle_message_agree (P : Platform) (u msg tok : string) (w3 w7 : World) :
  sim w3 w7 →
  agree (Bot3.handle_message P u msg tok w3) (Bot7.handle_message P u msg tok w7).
Proof.
  intros Hs. rewrite handle_message3_run, handle_message7_run. cbn zeta.
  pose proof (reload_sim w3 w7 Hs) as Hs'.
  destruct Hs' as (Hc & Hrest). rewrite Hc.
  assert (Hs1 : sim (reload_if_empty w3).2 (reload_if_empty w7).2) by by split.
  destruct (negb _); [by apply bootstrap_agree |].
  destruct (String.eqb _ _); [by apply reply_agree | by apply feedback_loop_agree].
Qed.

Lemma handle_postback_agree (P : Platform) (u data tok : string) (w3 w7 : World) :
  sim w3 w7 →
  agree (Bot3.handle_postback P u data tok w3) (Bot7.handle_postback P u data tok w7).
Proof.
  intros (Hc & Ht & Hf & Hr).
  destruct (Re.search postback_pattern (PyStr.lower data)) as [g|] eqn:Hg.
  - rewrite (handle_postback3_match P u data tok w3 g Hg).
    rewrite (handle_postback7_match P u data tok w7 g Hg).
    cbn zeta. rewrite Hc.
    set (name := display_name <$> user_cache w7 !! u).
    set (fb := PyStr.int (group_str 2 g)).
    set (rid := PyStr.int (group_str 3 g)).
    set (lt := list_type_of_data (PyStr.lower data)).
    unfold bind.
    destruct (post_ok P (mkForward u name fb (Some rid) "-" lt)) eqn:Hpost;
      destruct (reply_ok P tok (thanks_score fb)) eqn:Hreply;
      destruct (Sql.fits_integer rid) eqn:Hfit;
      do 4 (cbn [fst snd user_cache users trace]; cbn zeta;
            rewrite ?send_to_powerapp_run, ?reply_message_run,
              ?update_last_record_id_run, ?Hpost, ?Hreply, ?Hfit, ?Hc, ?Ht);
      agree_done.
  - destruct (handle_postback_no_match P u data tok w3 Hg) as [-> _].
    destruct (handle_postback_no_match P u data tok w7 Hg) as [_ ->].
    agree_done.
Qed.

Lemma handle_agree (P : Platform) (ev : Event) (w3 w7 : World) :
  sim w3 w7 → agree (Bot3.handle P ev w3) (Bot7.handle P ev w7).
Proof.
  intros Hs. destruct ev as [u msg tok | u data tok |].
  - by apply handle_message_agree.
  - by apply handle_postback_agree.
  - destruct Hs as (? & ? & ? & ?). cbn [Bot3.handle Bot7.handle]. unfold ret.
    agree_done.
Qed.

Lemma dispatch_all_agree (P : Platform) (evs : list Event) (w3 w7 : World) :
  sim w3 w7 →
  agree (dispatch_all (Bot3.handle P) evs w3) (dispatch_all (Bot7.handle P) evs w7).
Proof.
  revert w3 w7. induction evs as [|ev rest IH]; intros w3 w7 Hs.
  - destruct Hs as (? & ? & ? & ?). cbn [dispatch_all]. unfold ret. agree_done.
  - cbn [dispatch_all]. unfold bind.
    destruct (handle_agree P ev w3 w7 Hs) as [Hiff Hsim].
    destruct (Bot3.handle P ev w3) as [[[]|e3] w3'],
             (Bot7.handle P ev w7) as [[[]|e7] w7']; cbn [fst snd] in *.
    + apply IH. by apply Hsim.
    + by destruct Hiff as [Hiff _]; specialize (Hiff eq_refl).
    + by destruct Hiff as [_ Hiff]; specialize (Hiff eq_refl).
    + split; [split; discriminate | discriminate].
Qed.

Lemma webhook3_valid (P : Platform) (req : Request) (w : World) :
  signature_valid req = true →
  Bot3.webhook P req w =
  match dispatch_all (Bot3.handle P) (events req) w with
  | (Val _, w') => (Val "OK", w')
  | (Exc e, w') => (Exc e, w')
  end.
Proof.
  intros Hv. unfold Bot3.webhook, handler_handle, bind, ret. rewrite Hv.
  by destruct (dispatch_all _ _ w) as [[[]|e] w'].
Qed.

Lemma webhook7_valid (P : Platform) (req : Request) (w : World) :
  signature_valid req = true →
  (Bot7.webhook P req w).2 = (dispatch_all (Bot7.handle P) (events req) w).2 ∧
  ((Bot7.webhook P req w).1 = Val "OK" ↔
   (dispatch_all (Bot7.handle P) (events req) w).1 = Val tt).
Proof.
  intros Hv. unfold Bot7.webhook, handler_handle, try_except, bind, ret, raise.
  rewrite Hv.
  destruct (dispatch_all _ _ w) as [[[]|e] w']; cbn [fst snd]; [done |].
  destruct e; cbn [fst snd]; (split; [done | split; discriminate]).
Qed.

Lemma webhook_invalid (P : Platform) (req : Request) (w : World) :
  signature_valid req = false →
  Bot3.webhook P req w = (Exc InvalidSignatureError, w) ∧
  Bot7.webhook P req w = (Exc (HTTPException 400), w).
Proof.
  intros Hv.
  unfold Bot3.webhook, Bot7.webhook, handler_handle, try_except, bind, ret, raise.
  by rewrite Hv.
Qed.

(** [C9] Side by side, the two files agree on every run that ends without
    an exception. For each event, from similar worlds, one handler returns
    exactly when the other does, and then they leave the same cache, the
    same table, the same forward calls and the same replies; so do the two
    endpoints for a request whose signature verifies, both answering "OK".
    When the signature does not verify, both raise before any handler runs
    and leave the world as it was. *)
Theorem webhooks_agree (P : Platform) (req : Request) (w : World) :
  (∀ ev w3 w7, sim w3 w7 → agree (Bot3.handle P ev w3) (Bot7.handle P ev w7)) ∧
  (signature_valid req = true →
   ((Bot3.webhook P req w).1 = Val "OK" ↔ (Bot7.webhook P req w).1 = Val "OK") ∧
   ((Bot3.webhook P req w).1 = Val "OK" →
    same_behaviour (Bot3.webhook P req w) (Bot7.webhook P req w))) ∧
  (signature_valid req = false →
   (∃ e3 e7, (Bot3.webhook P req w).1 = Exc e3 ∧ (Bot7.webhook P req w).1 = Exc e7) ∧
   (Bot3.webhook P req w).2 = w ∧ (Bot7.webhook P req w).2 = w).
Proof.
  split; [intros ev w3 w7; apply handle_agree |]. split.
  - intros Hv.
    assert (Hs : sim w w) by by repeat split.
    destruct (dispatch_all_agree P (events req) w w Hs) as [Hiff Hsim].
    destruct (webhook7_valid P req w Hv) as [H7w H7r].
    rewrite (webhook3_valid P req w Hv) in *.
    destruct (dispatch_all (Bot3.handle P) (events req) w) as [[[]|e3] w3'];
      cbn [fst snd] in *.
    + assert (H7 : (Bot7.webhook P req w).1 = Val "OK") by (apply H7r; by apply Hiff).
      split; [done |]. intros _. split; [by rewrite H7 |].
      rewrite H7w. by apply Hsim.
    + split; [| discriminate]. split; [discriminate |].
      intros H7%H7r%Hiff. discriminate H7.
  - intros Hv. destruct (webhook_invalid P req w Hv) as [-> ->].
    cbn [fst snd]. split; [by eexists _, _ | done].
Qed.

Lemma webhooks_agree_witness :
  same_behaviour
    (Bot3.webhook platform_ok
       (mkRequest true [MessageEvent "U1" "hi" "t1";
                        PostbackEvent "U1" service_payload "t2";
                        MessageEvent "U1" service_text "t3"]) world_empty)
    (Bot7.webhook platform_ok
       (mkRequest true [MessageEvent "U1" "hi" "t1";
                        PostbackEvent "U1" service_payload "t2";
                        MessageEvent "U1" service_text "t3"]) world_empty).
Proof.
  apply (webhooks_agree platform_ok
           (mkRequest true [MessageEvent "U1" "hi" "t1";
                            PostbackEvent "U1" service_payload "t2";
                            MessageEvent "U1" service_text "t3"]) world_empty);
    [reflexivity | vm_compute; reflexivity].
Defined.

(** * Further properties *)

(** ** What every handler keeps *)

Lemma trace_blind_calls_blind (I : World → Prop) : trace_blind I → calls_blind I.
Proof. intros HI w e _ Hw. by apply (HI w). Qed.

Lemma preserves_read {A} (I : World → Prop) (f : World → A) :
  preserves I (fun w => (Val (f w), w)).
Proof. by intros w. Qed.

Lemma preserves_get_display_name (I : World → Prop) (u : string) :
  preserves I (get_display_name u).
Proof. by intros w. Qed.

Lemma preserves_get_last_record_id (I : World → Prop) (u : string) :
  preserves I (get_last_record_id u).
Proof. by intros w. Qed.

Lemma preserves_send (I : World → Prop) (P : Platform) u name fb rid txt lt :
  calls_blind I → preserves I (send_to_powerapp P u name fb rid txt lt).
Proof.
  intros HI w Hw. rewrite send_to_powerapp_run. cbn [snd]. by apply HI.
Qed.

Lemma preserves_reply (I : World → Prop) (P : Platform) tok text :
  calls_blind I → preserves I (reply_message P tok text).
Proof.
  intros HI w Hw. rewrite reply_message_run. cbn [snd]. by apply HI.
Qed.

Lemma preserves_get_profile (I : World → Prop) (P : Platform) u :
  trace_blind I → preserves I (get_profile P u).
Proof.
  intros HI w Hw. unfold get_profile, emit, bind, ret, raise. cbn [fst snd].
  destruct (profile_of P u); cbn [snd]; by apply (HI w).
Qed.

Lemma preserves_try_except {A} (I : World → Prop) (m h : Py A) catches :
  preserves I m → preserves I h → preserves I (try_except m catches h).
Proof.
  intros Hm Hh w Hw. unfold try_except. specialize (Hm w Hw).
  destruct (m w) as [[a|e] w1]; cbn [snd] in *; [done |].
  destruct (catches e); [by apply Hh | done].
Qed.

Lemma preserves_bootstrap (I : World → Prop) (P : Platform) (u : string) :
  trace_blind I → (∀ name, preserves I (add_user u name)) →
  preserves I (bootstrap P u).
Proof.
  intros HI Hadd. unfold bootstrap.
  apply preserves_bind; [by apply preserves_get_profile | intros name].
  apply preserves_bind; [apply Hadd | intros _].
  by apply preserves_send, trace_blind_calls_blind.
Qed.

Lemma preserves_feedback_loop3 (I : World → Prop) (P : Platform) u name msg tok ps :
  calls_blind I → preserves I (Bot3.feedback_loop P u name msg tok ps).
Proof.
  intros HI. induction ps as [|prefix rest IH]; cbn [Bot3.feedback_loop].
  - apply preserves_ret.
  - destruct (PyStr.contains prefix msg); [| exact IH].
    apply preserves_bind; [apply preserves_get_last_record_id | intros rid].
    destruct (Re.search text_pattern msg); [| apply preserves_ret].
    apply preserves_bind; [by apply preserves_send | intros _].
    by apply preserves_reply.
Qed.

Lemma preserves_feedback_loop7 (I : World → Prop) (P : Platform) u name msg tok ps :
  calls_blind I → preserves I (Bot7.feedback_loop P u name msg tok ps).
Proof.
  intros HI. induction ps as [|prefix rest IH]; cbn [Bot7.feedback_loop].
  - apply preserves_ret.
  - destruct (PyStr.contains prefix msg); [| exact IH].
    apply preserves_bind; [apply preserves_get_last_record_id | intros rid].
    destruct (Re.search text_pattern msg); [| apply preserves_ret].
    apply preserves_bind; [by apply preserves_reply | intros _].
    by apply preserves_send.
Qed.

(** A property that [reload_if_empty] and [add_user] keep is kept by the
    text handler. *)
Lemma preserves_handle_message (I : World → Prop) (P : Platform) u msg tok :
  trace_blind I → preserves I reload_if_empty →
  (∀ name, preserves I (add_user u name)) →
  preserves I (Bot3.handle_message P u msg tok) ∧
  preserves I (Bot7.handle_message P u msg tok).
Proof.
  intros HI Hre Hadd.
  pose proof (trace_blind_calls_blind I HI) as HI'.
  split; unfold Bot3.handle_message, Bot7.handle_message;
    (apply preserves_bind; [exact Hre | intros _]);
    (apply preserves_bind; [apply preserves_get_display_name | intros name]);
    (destruct (negb (truthy name)); [by apply preserves_bootstrap |]);
    (destruct (String.eqb _ _); [by apply preserves_reply |]).
  - by apply preserves_feedback_loop3.
  - by apply preserves_feedback_loop7.
Qed.

(** A property that [update_last_record_id] keeps is kept by the postback
    handler. *)
Lemma preserves_handle_postback (I : World → Prop) (P : Platform) u data tok :
  calls_blind I → (∀ r, preserves I (update_last_record_id u r)) →
  preserves I (Bot3.handle_postback P u data tok) ∧
  preserves I (Bot7.handle_postback P u data tok).
Proof.
  intros HI Hupd.
  split; unfold Bot3.handle_postback, Bot7.handle_postback;
    (apply preserves_bind; [apply preserves_get_display_name | intros name]);
    (destruct (Re.search _ _); [| apply preserves_ret]).
  - apply preserves_bind; [by apply preserves_send | intros _].
    apply preserves_bind; [by apply preserves_reply | intros _]. apply Hupd.
  - apply preserves_bind; [by apply preserves_reply | intros _].
    apply preserves_bind; [apply Hupd | intros _]. by apply preserves_send.
Qed.

Lemma preserves_handle (I : World → Prop) (P : Platform) (ev : Event) :
  trace_blind I → preserves I reload_if_empty →
  (∀ u name, preserves I (add_user u name)) →
  (∀ u r, preserves I (update_last_record_id u r)) →
  preserves I (Bot3.handle P ev) ∧ preserves I (Bot7.handle P ev).
Proof.
  intros HI Hre Hadd Hupd. destruct ev as [u msg tok | u data tok |].
  - by apply preserves_handle_message.
  - apply preserves_handle_postback; [by apply trace_blind_calls_blind | done].
  - split; apply preserves_ret.
Qed.

Lemma preserves_dispatch_all (I : World → Prop) (handle : Event → Py unit) evs :
  (∀ ev, preserves I (handle ev)) → preserves I (dispatch_all handle evs).
Proof.
  intros Hh. induction evs as [|ev rest IH]; cbn [dispatch_all].
  - apply preserves_ret.
  - by apply preserves_bind.
Qed.

Lemma preserves_webhook (I : World → Prop) (P : Platform) (req : Request) :
  trace_blind I → preserves I reload_if_empty →
  (∀ u name, preserves I (add_user u name)) →
  (∀ u r, preserves I (update_last_record_id u r)) →
  preserves I (Bot3.webhook P req) ∧ preserves I (Bot7.webhook P req).
Proof.
  intros HI Hre Hadd Hupd.
  assert (H3 : preserves I (handler_handle (Bot3.handle P) req)).
  { unfold handler_handle. destruct (signature_valid req); [| apply preserves_raise].
    apply preserves_dispatch_all. intros ev. by apply preserves_handle. }
  assert (H7 : preserves I (handler_handle (Bot7.handle P) req)).
  { unfold handler_handle. destruct (signature_valid req); [| apply preserves_raise].
    apply preserves_dispatch_all. intros ev. by apply preserves_handle. }
  split; unfold Bot3.webhook, Bot7.webhook.
  - apply preserves_bind; [done | intros _; apply preserves_ret].
  - apply preserves_bind; [| intros _; apply preserves_ret].
    apply preserves_try_except; [done | apply preserves_raise].
Qed.

(** ** Stored users are cached, in every world of a run *)

Lemma stored_cached_blind : trace_blind stored_cached.
Proof. by intros w tr Hw. Qed.

Lemma stored_cached_reload : preserves stored_cached reload_if_empty.
Proof.
  intros w Hw. rewrite reload_if_empty_run. unfold stored_cached in *.
  cbn [snd users user_cache]. by destruct (decide (user_cache w = ∅)).
Qed.

Lemma stored_cached_add_user (u name : string) :
  preserves stored_cached (add_user u name).
Proof.
  intros w Hw. rewrite add_user_run. unfold stored_cached in *.
  cbn [snd users user_cache]. rewrite dom_insert_L.
  destruct (users w !! u); [| rewrite dom_insert_L].
  - etrans; [exact Hw | apply union_subseteq_r].
  - by apply union_mono_l.
Qed.

Lemma stored_cached_update (u : string) (r : Z) :
  preserves stored_cached (update_last_record_id u r).
Proof.
  intros w Hw. rewrite update_last_record_id_run. unfold stored_cached in *.
  cbn zeta. destruct (Sql.fits_integer r), (user_cache w !! u);
    cbn [snd users user_cache]; by rewrite ?dom_alter_L.
Qed.

Lemma stored_cached_serve (P : Platform) (c : Call) (w : World) :
  stored_cached w →
  stored_cached (serve Bot3.webhook P w c) ∧
  stored_cached (serve Bot7.webhook P w c).
Proof.
  intros Hw. destruct c as [req |]; cbn [serve].
  - destruct (preserves_webhook stored_cached P req stored_cached_blind
                stored_cached_reload stored_cached_add_user
                stored_cached_update) as [H3 H7].
    split; [by apply H3 | by apply H7].
  - split; unfold stored_cached; cbn; rewrite dom_empty_L; apply empty_subseteq.
Qed.

Lemma stored_cached_fold (webhook : Platform → Request → Py string)
    (P : Platform) (calls : list Call) (w : World) :
  (∀ w' c, stored_cached w' → stored_cached (serve webhook P w' c)) →
  stored_cached w → stored_cached (fold_left (serve webhook P) calls w).
Proof.
  intros Hs. revert w. induction calls as [|c calls IH]; intros w Hw; [done |].
  cbn [fold_left]. by apply IH, Hs.
Qed.

(** [X1] In a process that runs [startup] and then serves webhook requests
    and administrative deletes one after the other, whatever the platform
    answers and whichever handler raises, every user id with a row in the
    table has an entry in the cache. *)
Theorem run_stored_cached (P : Platform) (calls : list Call) (w0 : World) :
  stored_cached (run Bot3.webhook P calls w0) ∧
  stored_cached (run Bot7.webhook P calls w0).
Proof.
  assert (H0 : stored_cached (startup w0).2).
  { rewrite startup_run. by unfold stored_cached. }
  split; apply stored_cached_fold; try done; intros w' c Hw';
    by apply stored_cached_serve.
Qed.

(** [X2] In a world where every stored user is cached, as in every world of
    a run, the guard [if not user_cache: load_cache_from_db()] of the text
    handler changes nothing: there an empty cache means an empty table. *)
Theorem stored_cached_reload_noop (w : World) :
  stored_cached w → reload_if_empty w = (Val tt, w).
Proof.
  intros Hw. rewrite reload_if_empty_run. destruct w as [c t tr].
  unfold stored_cached in Hw. cbn [users user_cache trace] in *.
  destruct (decide (c = ∅)) as [->|]; [| done].
  rewrite dom_empty_L in Hw.
  assert (dom t = ∅) as ->%dom_empty_inv_L; [| done].
  apply elem_of_equiv_empty_L. intros x Hx. by apply Hw, not_elem_of_empty in Hx.
Qed.

Lemma stored_cached_reload_noop_witness :
  reload_if_empty world_empty = (Val tt, world_empty).
Proof.
  apply (stored_cached_reload_noop world_empty).
  unfold stored_cached. cbn. by rewrite dom_empty_L.
Defined.

(** [X3] In a world where every stored user is cached the write-through
    holds for every user: after [update_last_record_id] returned, a read of
    the cache gives what the table holds for the user. *)
Theorem stored_cached_write_through (w : World) (u : string) (r : Z) :
  stored_cached w → write_through w u r.
Proof.
  intros Hw. unfold write_through. cbn zeta.
  rewrite update_last_record_id_run. cbn zeta.
  destruct (Sql.fits_integer r); cbn [fst snd users user_cache]; [| done].
  intros _ row. rewrite lookup_alter_eq.
  destruct (users w !! u) as [row0|] eqn:Hrow; cbn; [| done].
  intros [= <-].
  assert (Hin : u ∈ dom (user_cache w)).
  { apply Hw. by apply elem_of_dom_2 in Hrow. }
  apply elem_of_dom in Hin as [e He].
  unfold get_last_record_id, get_cache, bind, ret. cbn [fst snd user_cache].
  by rewrite He, lookup_alter_eq, He.
Qed.

Lemma stored_cached_write_through_witness :
  write_through (world_alice None) "U1" 123.
Proof.
  apply (stored_cached_write_through (world_alice None) "U1" 123).
  unfold stored_cached. by cbn.
Defined.

(** ** What the handlers leave alone *)

Lemma rows_kept_refl (w : World) : rows_kept w w.
Proof. intros u row Hrow. by exists row. Qed.

Lemma rows_kept_blind (w0 : World) : trace_blind (rows_kept w0).
Proof. by intros w tr Hw. Qed.

Lemma rows_kept_reload (w0 : World) : preserves (rows_kept w0) reload_if_empty.
Proof. intros w Hw. by rewrite reload_if_empty_run. Qed.

Lemma rows_kept_add_user (w0 : World) (u name : string) :
  preserves (rows_kept w0) (add_user u name).
Proof.
  intros w Hw v row Hrow. rewrite add_user_run. cbn [snd users].
  destruct (Hw v row Hrow) as (row' & Hrow' & Hname).
  exists row'. split; [| done].
  destruct (users w !! u) eqn:Hu; [done |].
  rewrite lookup_insert_ne; [done |]. intros ->. congruence.
Qed.

Lemma rows_kept_update (w0 : World) (u : string) (r : Z) :
  preserves (rows_kept w0) (update_last_record_id u r).
Proof.
  intros w Hw v row Hrow. rewrite update_last_record_id_run. cbn zeta.
  destruct (Hw v row Hrow) as (row' & Hrow' & Hname).
  destruct (Sql.fits_integer r); cbn [snd users]; [| by exists row'].
  destruct (decide (v = u)) as [->|Hne].
  - exists (Sql.set_last r row'). by rewrite lookup_alter_eq, Hrow'.
  - exists row'. by rewrite lookup_alter_ne.
Qed.

(** [X4] No webhook request removes a row of the table or changes the
    display name of a row, in either file, whatever its events are and
    whatever raises while it is served. *)
Theorem webhook_keeps_rows (P : Platform) (req : Request) (w : World) :
  rows_kept w (Bot3.webhook P req w).2 ∧ rows_kept w (Bot7.webhook P req w).2.
Proof.
  destruct (preserves_webhook (rows_kept w) P req (rows_kept_blind w)
              (rows_kept_reload w) (rows_kept_add_user w)
              (rows_kept_update w)) as [H3 H7].
  split; [apply H3 | apply H7]; apply rows_kept_refl.
Qed.

(** [X5] A text message changes no row that the table has: each one stays
    as it is, [last_record_id] included, and only a row of the sender can be
    new. This holds in both files, for a known or an unknown sender. *)
Theorem text_message_adds_only (P : Platform) (u msg tok : string) (w : World) :
  let only_adds w' :=
    users w ⊆ users w' ∧ (∀ v, v ≠ u → users w' !! v = users w !! v) in
  only_adds (Bot3.handle_message P u msg tok w).2 ∧
  only_adds (Bot7.handle_message P u msg tok w).2.
Proof.
  cbn zeta.
  set (I := fun w' : World =>
    users w ⊆ users w' ∧ (∀ v, v ≠ u → users w' !! v = users w !! v)).
  assert (Hblind : trace_blind I) by by intros w' tr Hw'.
  assert (Hre : preserves I reload_if_empty).
  { intros w' Hw'. by rewrite reload_if_empty_run. }
  assert (Hadd : ∀ name, preserves I (add_user u name)).
  { intros name w' [Hsub Hoth]. rewrite add_user_run. unfold I. cbn [snd users].
    destruct (users w' !! u) eqn:Hu; [done |]. split.
    - etrans; [exact Hsub |]. by apply insert_subseteq.
    - intros v Hv. rewrite lookup_insert_ne by done. by apply Hoth. }
  destruct (preserves_handle_message I P u msg tok Hblind Hre Hadd) as [H3 H7].
  assert (H0 : I w) by by split.
  split; [by apply H3 | by apply H7].
Qed.

Lemma only_last_of_refl (u : string) (w : World) : only_last_of u w w.
Proof. by repeat split. Qed.

Lemma only_last_of_blind (u : string) (w0 : World) : calls_blind (only_last_of u w0).
Proof. by intros w e _ Hw. Qed.

Lemma only_last_of_update (u : string) (w0 : World) (r : Z) :
  preserves (only_last_of u w0) (update_last_record_id u r).
Proof.
  intros w (Hoth & Hc & Ht). rewrite update_last_record_id_run. cbn zeta.
  assert (Hname : ∀ m : gmap string UserRecord,
            display_name <$> alter (Sql.set_last r) u m !! u = display_name <$> m !! u).
  { intros m. rewrite lookup_alter_eq. by destruct (m !! u). }
  assert (Hcache : ∀ v,
            match user_cache w !! u with
            | Some _ => alter (Sql.set_last r) u (user_cache w)
            | None => user_cache w
            end !! v =
            if decide (v = u) then Sql.set_last r <$> user_cache w !! u
            else user_cache w !! v).
  { intros v. destruct (decide (v = u)) as [->|Hne].
    - destruct (user_cache w !! u) eqn:He; [by rewrite lookup_alter_eq, He | by rewrite He].
    - destruct (user_cache w !! u); [by rewrite lookup_alter_ne | done]. }
  destruct (Sql.fits_integer r); unfold only_last_of; cbn [snd users user_cache];
    repeat split.
  - rewrite Hcache, decide_False by done. by apply Hoth.
  - rewrite lookup_alter_ne by done. by apply Hoth.
  - rewrite Hcache, decide_True by done. rewrite <- Hc.
    by destruct (user_cache w !! u).
  - by rewrite Hname.
  - rewrite Hcache, decide_False by done. by apply Hoth.
  - by apply Hoth.
  - rewrite Hcache, decide_True by done. rewrite <- Hc.
    by destruct (user_cache w !! u).
  - done.
Qed.

(** [X6] A postback of one user touches nothing of another user, in the
    cache or in the table, adds and removes no entry and no row, and changes
    no display name: the sender's [last_record_id] is all it can change.
    This holds in both files, whatever the payload and whatever raises. *)
Theorem postback_changes_only_last (P : Platform) (u data tok : string) (w : World) :
  only_last_of u w (Bot3.handle_postback P u data tok w).2 ∧
  only_last_of u w (Bot7.handle_postback P u data tok w).2.
Proof.
  destruct (preserves_handle_postback (only_last_of u w) P u data tok
              (only_last_of_blind u w) (only_last_of_update u w)) as [H3 H7].
  split; [apply H3 | apply H7]; apply only_last_of_refl.
Qed.

Lemma state_kept_refl (w : World) : state_kept w w.
Proof. by repeat split. Qed.

Lemma state_kept_blind (w0 : World) : calls_blind (state_kept w0).
Proof.
  intros w e He (Hc & Ht & Htr). repeat split; cbn [user_cache users trace]; try done.
  intros v [Hv | Hv]%elem_of_app; [by apply Htr |].
  apply list_elem_of_singleton in Hv. by subst e.
Qed.

Lemma handle_message_known (P : Platform) (u msg tok : string) (w : World)
    (e : UserRecord) :
  user_cache w !! u = Some e → display_name e ≠ "" →
  Bot3.handle_message P u msg tok w =
    (if String.eqb (PyStr.lower msg) "hello"
     then reply_message P tok (hello (display_name e)) w
     else Bot3.feedback_loop P u (Some (display_name e)) msg tok prefixes w) ∧
  Bot7.handle_message P u msg tok w =
    (if String.eqb (PyStr.lower msg) "hello"
     then reply_message P tok (hello (display_name e)) w
     else Bot7.feedback_loop P u (Some (display_name e)) msg tok prefixes w).
Proof.
  intros He Hname. rewrite handle_message3_run, handle_message7_run.
  rewrite (reload_if_empty_hit w u e He). cbn [snd]. cbn zeta.
  rewrite He. cbn [fmap option_fmap option_map].
  by rewrite (truthy_name e Hname).
Qed.

(** [X7] A text message of a user the cache holds with a non-empty display
    name, whatever its text, leaves the cache and the table as they are and
    fetches no profile, in both files: such a user is never stored again. *)
Theorem known_user_text_keeps_state (P : Platform) (u msg tok : string)
    (w : World) (e : UserRecord) :
  user_cache w !! u = Some e →
  display_name e ≠ "" →
  state_kept w (Bot3.handle_message P u msg tok w).2 ∧
  state_kept w (Bot7.handle_message P u msg tok w).2.
Proof.
  intros He Hname.
  destruct (handle_message_known P u msg tok w e He Hname) as [-> ->].
  pose proof (state_kept_blind w) as Hb. pose proof (state_kept_refl w) as H0.
  destruct (String.eqb _ _).
  - split; by apply preserves_reply.
  - split; [by apply preserves_feedback_loop3 | by apply preserves_feedback_loop7].
Qed.

Lemma known_user_text_keeps_state_witness :
  state_kept (world_alice (Some 123))
    (Bot3.handle_message platform_ok "U1" service_text "tok"
       (world_alice (Some 123))).2.
Proof.
  apply (known_user_text_keeps_state platform_ok "U1" service_text "tok"
           (world_alice (Some 123)) (mkUser "Alice" (Some 123)));
    [reflexivity | discriminate].
Defined.

(** ** What a restart reads back *)

(** [X8] A record id written by [update_last_record_id] to a row of the
    table survives a restart: after [startup] the cache gives that id and
    the row's display name for the user, whether or not the cache held the
    user before. *)
Theorem update_survives_restart (w : World) (u : string) (r : Z) (row : UserRecord) :
  users w !! u = Some row →
  Sql.fits_integer r = true →
  let w' := (startup (update_last_record_id u r w).2).2 in
  (get_last_record_id u w').1 = Val (Some r) ∧
  (get_display_name u w').1 = Val (Some (display_name row)).
Proof.
  intros Hrow Hfit. cbn zeta.
  rewrite update_last_record_id_run, Hfit. cbn zeta. cbn [snd].
  rewrite startup_run. cbn [snd users].
  unfold get_last_record_id, get_display_name, get_cache, bind, ret.
  cbn [fst snd user_cache]. by rewrite lookup_alter_eq, Hrow.
Qed.

Lemma update_survives_restart_witness :
  (get_last_record_id "U1"
     (startup (update_last_record_id "U1" 123 world_row_without_entry).2).2).1
  = Val (Some 123).
Proof.
  apply (update_survives_restart world_row_without_entry "U1" 123
           (mkUser "Alice" None)); reflexivity.
Defined.

(** [X9] What a restart reads back after [add_user]: the user is there, with
    the name and record id of the row the table had for the id, or, if it
    had none, with the name given and no record id. *)
Theorem add_user_survives_restart (w : World) (u name : string) :
  let w' := (startup (add_user u name w).2).2 in
  user_cache w' !! u =
    Some (match users w !! u with
          | Some row => row
          | None => mkUser name None
          end) ∧
  (∀ v, v ≠ u → user_cache w' !! v = users w !! v).
Proof.
  cbn zeta. rewrite add_user_run. cbn [snd]. rewrite startup_run.
  cbn [snd users user_cache].
  destruct (users w !! u) eqn:Hu; split; try done.
  - apply lookup_insert_eq.
  - intros v Hv. by rewrite lookup_insert_ne.
Qed.

(** ** A user is stored once *)



(** [X11] When the profile fetch of a new user raises, the text handler
    raises with it and nothing is stored and nothing is forwarded: the table
    is as it was, the user has no cache entry, and the fetch is the only
    call made. This holds in both files. *)
Theorem profile_failure_stores_nothing (P : Platform) (w : World) (u msg tok : string) :
  user_cache w !! u = None →
  users w !! u = None →
  profile_of P u = None →
  let failed (o : Result unit * World) :=
    o.1 = Exc LineBotApiError ∧
    users o.2 = users w ∧
    user_cache o.2 !! u = None ∧
    trace o.2 = trace w ++ [GetProfile u] in
  failed (Bot3.handle_message P u msg tok w) ∧
  failed (Bot7.handle_message P u msg tok w).
Proof.
  intros Hc Ht Hp. cbn zeta.
  assert (Hmiss : display_name <$> user_cache (reload_if_empty w).2 !! u = None).
  { rewrite reload_if_empty_run. cbn.
    destruct (decide (user_cache w = ∅)); [by rewrite Ht | by rewrite Hc]. }
  rewrite handle_message3_run, handle_message7_run. cbn zeta.
  rewrite Hmiss. cbn [truthy negb].
  rewrite (bootstrap_fail P u _ Hp), reload_if_empty_run.
  cbn [fst snd users user_cache trace].
  destruct (decide (user_cache w = ∅)); by rewrite ?Ht, ?Hc.
Qed.

Lemma profile_failure_stores_nothing_witness :
  (Bot3.handle_message (mkPlatform (fun _ => None) (fun _ => true) (fun _ _ => true))
     "U1" "hi" "tok" world_empty).1 = Exc LineBotApiError.
Proof.
  apply (profile_failure_stores_nothing
           (mkPlatform (fun _ => None) (fun _ => true) (fun _ _ => true))
           world_empty "U1" "hi" "tok"); reflexivity.
Defined.

(** ** The two patterns *)

















Lemma rmatch_seq r1 r2 s g k :
  Re.rmatch (Re.Seq r1 r2) s g k =
  Re.rmatch r1 s g (fun s' g' => Re.rmatch r2 s' g' k).
Proof. reflexivity. Qed.

Lemma rmatch_lit l s g k :
  Re.rmatch (Re.Lit l) s g k =
  match Re.strip_prefix l s with Some s' => k s' g | None => None end.
Proof. reflexivity. Qed.








(** ** Numbers in decimal *)





(** ** Feedback in general *)






Lemma all_chars_app (p : ascii → bool) (a b : string) :
  all_chars p (a +:+ b) = all_chars p a && all_chars p b.
Proof.
  induction a as [|c a IH]; [done |].
  rewrite append_cons. cbn [all_chars]. by rewrite IH, andb_assoc.
Qed.

Lemma lower_char_colon (c : ascii) :
  Ascii.eqb (PyStr.lower_char c) ":" = Ascii.eqb c ":".
Proof. destruct c as [[] [] [] [] [] [] [] []]; by vm_compute. Qed.

Lemma lower_no_colon (s : string) :
  all_chars (fun a => negb (Ascii.eqb a ":")) (PyStr.lower s) =
  all_chars (fun a => negb (Ascii.eqb a ":")) s.
Proof.
  induction s as [|c s IH]; [done |].
  cbn [PyStr.lower all_chars]. by rewrite IH, lower_char_colon.
Qed.

(** A message with a colon in it is not a greeting. *)
Lemma colon_not_hello (pre post : string) :
  String.eqb (PyStr.lower (pre +:+ ":" +:+ post)) "hello" = false.
Proof.
  apply String.eqb_neq. intros Hh.
  assert (Hc : all_chars (fun a => negb (Ascii.eqb a ":"))
                 (PyStr.lower (pre +:+ ":" +:+ post)) = true) by by rewrite Hh.
  rewrite lower_no_colon, all_chars_app, append_cons in Hc.
  cbn [all_chars] in Hc. rewrite Ascii.eqb_refl in Hc. cbn [negb andb] in Hc.
  by rewrite andb_false_r in Hc.
Qed.


Lemma feedback_loop_run (P : Platform) (u : string) (name : option string)
    (msg tok : string) (w : World) :
  Bot3.feedback_loop P u name msg tok prefixes w =
    match list_type_of_text msg, Re.search text_pattern msg with
    | Some lt, Some g =>
        (send_to_powerapp P u name 0 (user_cache w !! u ≫= last_record_id)
           (group_str 1 g) lt ;;;
         reply_message P tok thanks) w
    | _, _ => (Val tt, w)
    end ∧
  Bot7.feedback_loop P u name msg tok prefixes w =
    match list_type_of_text msg, Re.search text_pattern msg with
    | Some lt, Some g =>
        (reply_message P tok thanks ;;;
         send_to_powerapp P u name 0 (user_cache w !! u ≫= last_record_id)
           (group_str 1 g) lt) w
    | _, _ => (Val tt, w)
    end.
Proof.
  unfold prefixes, list_type_of_text.
  cbn [Bot3.feedback_loop Bot7.feedback_loop].
  destruct (PyStr.contains "Service Feedback :" msg).
  - rewrite !bind_get_last_record_id.
    by destruct (Re.search text_pattern msg).
  - destruct (PyStr.contains "Action Feedback :" msg); [| done].
    rewrite !bind_get_last_record_id.
    by destruct (Re.search text_pattern msg).
Qed.



Lemma star_space_newlines (nl : string) (k : string → option Re.captures) :
  all_chars is_newline nl = true →
  (∀ s, all_chars is_newline s = true → k s = None) →
  Re.star_greedy PyStr.is_space nl k = None.
Proof.
  intros Hnl Hk. induction nl as [|c nl IH]; cbn [Re.star_greedy].
  - by apply Hk.
  - rewrite (Hk _ Hnl). cbn [all_chars] in Hnl.
    apply andb_true_iff in Hnl as [Hc Hnl]. rewrite (IH Hnl).
    by destruct (PyStr.is_space c).
Qed.

Lemma newline_no_colon (s : string) :
  all_chars is_newline s = true →
  all_chars (fun a => negb (Ascii.eqb a ":")) s = true.
Proof.
  induction s as [|c s IH]; [done |]. cbn [all_chars].
  intros [Hc Hs]%andb_true_iff. rewrite (IH Hs), andb_true_r.
  unfold is_newline in Hc. apply Ascii.eqb_eq in Hc as ->. reflexivity.
Qed.

Lemma text_nothing_after_colon (pre nl : string) :
  all_chars (fun a => negb (Ascii.eqb a ":")) pre = true →
  all_chars is_newline nl = true →
  Re.search text_pattern (pre +:+ ":" +:+ nl) = None.
Proof.
  intros Hpre Hnl.
  rewrite (search_skip _ pre _ text_pattern_starts_at_colon Hpre).
  rewrite append_cons, append_empty. cbn [Re.search].
  assert (Hm : Re.match_here text_pattern (String ":" nl) = None).
  { unfold Re.match_here, text_pattern.
    rewrite rmatch_seq, rmatch_lit. cbn [Re.strip_prefix].
    rewrite Ascii.eqb_refl, rmatch_seq. cbn [Re.rmatch].
    apply star_space_newlines; [done |]. intros s Hs.
    destruct s as [|c s]; [done |]. cbn [all_chars] in Hs.
    apply andb_true_iff in Hs as [Hc _]. unfold is_newline in Hc.
    apply Ascii.eqb_eq in Hc as ->. reflexivity. }
  rewrite Hm. rewrite <- (append_empty_r nl).
  by rewrite (search_skip _ nl _ text_pattern_starts_at_colon (newline_no_colon nl Hnl)).
Qed.

(** [X15] A text message whose only colon is followed by nothing, or by line
    breaks only, from a user the cache holds with a non-empty display name,
    is dropped in silence by both files, prefix or not: no forward, no
    reply, no change, no exception. *)
Theorem text_without_body_dropped (P : Platform) (w : World)
    (u tok pre nl : string) (e : UserRecord) :
  user_cache w !! u = Some e →
  display_name e ≠ "" →
  all_chars (fun a => negb (Ascii.eqb a ":")) pre = true →
  all_chars is_newline nl = true →
  Bot3.handle_message P u (pre +:+ ":" +:+ nl) tok w = (Val tt, w) ∧
  Bot7.handle_message P u (pre +:+ ":" +:+ nl) tok w = (Val tt, w).
Proof.
  intros He Hname Hpre Hnl.
  destruct (handle_message_known P u (pre +:+ ":" +:+ nl) tok w e He Hname)
    as [-> ->].
  rewrite colon_not_hello.
  destruct (feedback_loop_run P u (Some (display_name e))
              (pre +:+ ":" +:+ nl) tok w) as [-> ->].
  rewrite (text_nothing_after_colon pre nl Hpre Hnl).
  by destruct (list_type_of_text _).
Qed.

Lemma text_without_body_dropped_witness :
  Bot3.handle_message platform_ok "U1" "Service Feedback :" "tok" (world_alice None)
  = (Val tt, world_alice None).
Proof.
  apply (text_without_body_dropped platform_ok (world_alice None) "U1" "tok"
           "Service Feedback " "" (mkUser "Alice" None));
    [reflexivity | discriminate | reflexivity | reflexivity].
Defined.

Lemma lower_fixed (s : string) :
  PyStr.lower s = s → all_chars is_lower_fixed s = true.
Proof.
  induction s as [|c s IH]; [done |]. cbn [PyStr.lower all_chars].
  intros [= Hc Hs]. rewrite (IH Hs), andb_true_r.
  unfold is_lower_fixed. by rewrite Hc, Ascii.eqb_refl.
Qed.

Lemma lower_case_no_prefix (msg : string) :
  PyStr.lower msg = msg → list_type_of_text msg = None.
Proof.
  intros Hfix%lower_fixed. unfold list_type_of_text.
  assert (Hno : ∀ prefix, all_chars is_lower_fixed prefix = false →
                PyStr.contains prefix msg = false).
  { intros prefix Hp. destruct (PyStr.contains prefix msg) eqn:Hc; [| done].
    apply contains_spec in Hc as (pre & post & ->).
    rewrite !all_chars_app, Hp, andb_false_l, andb_false_r in Hfix. discriminate Hfix. }
  by rewrite !Hno.
Qed.

(** [X16] The two text prefixes are matched with their capitals: a text
    message without capital letters, other than "hello", from a user the
    cache holds with a non-empty display name, is dropped in silence by both
    files, although a postback payload is matched in any case. *)
Theorem lower_case_text_dropped (P : Platform) (w : World) (u msg tok : string)
    (e : UserRecord) :
  user_cache w !! u = Some e →
  display_name e ≠ "" →
  PyStr.lower msg = msg →
  msg ≠ "hello" →
  Bot3.handle_message P u msg tok w = (Val tt, w) ∧
  Bot7.handle_message P u msg tok w = (Val tt, w).
Proof.
  intros He Hname Hlow Hmsg.
  destruct (handle_message_known P u msg tok w e He Hname) as [-> ->].
  rewrite Hlow. apply String.eqb_neq in Hmsg. rewrite Hmsg.
  destruct (feedback_loop_run P u (Some (display_name e)) msg tok w) as [-> ->].
  by rewrite (lower_case_no_prefix msg Hlow).
Qed.

Lemma lower_case_text_dropped_witness :
  Bot3.handle_message platform_ok "U1" "service feedback : great service" "tok"
    (world_alice (Some 123)) = (Val tt, world_alice (Some 123)).
Proof.
  apply (lower_case_text_dropped platform_ok (world_alice (Some 123)) "U1"
           "service feedback : great service" "tok" (mkUser "Alice" (Some 123)));
    [reflexivity | discriminate | reflexivity | discriminate].
Defined.

(** ** Postback, then text *)



(** ** The administrative delete *)

Lemma alter_empty_table (f : UserRecord → UserRecord) (u : string) :
  alter f u (∅ : gmap string UserRecord) = ∅.
Proof.
  apply map_eq. intros v. destruct (decide (v = u)) as [->|Hne].
  - by rewrite lookup_alter_eq, lookup_empty.
  - by rewrite lookup_alter_ne.
Qed.

(** [X18] [delete_all_users] empties the table and leaves the cache as it
    is. A user the cache still holds with a non-empty display name is
    therefore not stored again: after the delete the table stays empty
    through any text message and any postback of that user, in both files,
    so the record ids of those postbacks reach no row. *)
Theorem delete_all_users_leaves_cache (P : Platform) (w : World)
    (u msg data tok : string) (e : UserRecord) :
  user_cache w !! u = Some e →
  display_name e ≠ "" →
  let w1 := (delete_all_users w).2 in
  users w1 = ∅ ∧
  user_cache w1 = user_cache w ∧
  users (Bot3.handle_message P u msg tok w1).2 = ∅ ∧
  users (Bot7.handle_message P u msg tok w1).2 = ∅ ∧
  users (Bot3.handle_postback P u data tok w1).2 = ∅ ∧
  users (Bot7.handle_postback P u data tok w1).2 = ∅.
Proof.
  intros He Hname. cbn zeta.
  set (w1 := (delete_all_users w).2).
  assert (Ht : users w1 = ∅) by done.
  assert (Hc : user_cache w1 = user_cache w) by done.
  assert (He1 : user_cache w1 !! u = Some e) by by rewrite Hc.
  split; [done |]. split; [done |].
  set (I := fun w' : World => users w' = ∅).
  assert (Hblind : calls_blind I) by by intros w' ev _ Hw'.
  assert (Hupd : ∀ r, preserves I (update_last_record_id u r)).
  { intros r w' Hw'. rewrite update_last_record_id_run. cbn zeta. unfold I in *.
    destruct (Sql.fits_integer r); cbn [snd users]; [| done].
    by rewrite Hw', alter_empty_table. }
  destruct (preserves_handle_postback I P u data tok Hblind Hupd) as [Hp3 Hp7].
  destruct (handle_message_known P u msg tok w1 e He1 Hname) as [-> ->].
  repeat split; [| | by apply Hp3 | by apply Hp7];
    destruct (String.eqb _ _);
    first [by apply (preserves_reply I) | by apply (preserves_feedback_loop3 I)
          | by apply (preserves_feedback_loop7 I)].
Qed.

Lemma delete_all_users_leaves_cache_witness :
  users (Bot3.handle_postback platform_ok "U1" service_payload "tok"
           (delete_all_users (world_alice None)).2).2 = ∅.
Proof.
  apply (delete_all_users_leaves_cache platform_ok (world_alice None) "U1"
           "hello" service_payload "tok" (mkUser "Alice" None));
    [reflexivity | discriminate].
Defined.

(** ** At most one reply and one forward for an event *)

Lemma emits_silent {A} (m : Py A) :
  (∀ w, trace (m w).2 = trace w) → emits m 0 0.
Proof. intros Hm w. exists []. by rewrite Hm, app_nil_r. Qed.

Lemma emits_mono {A} (m : Py A) (nr nf nr' nf' : nat) :
  (nr ≤ nr')%nat → (nf ≤ nf')%nat → emits m nr nf → emits m nr' nf'.
Proof.
  intros Hr Hf Hm w. destruct (Hm w) as (new & Heq & H1 & H2).
  exists new. split; [done | split; lia].
Qed.

Lemma emits_bind {A B} (m : Py A) (k : A → Py B) (a b c d : nat) :
  emits m a b → (∀ x, emits (k x) c d) → emits (bind m k) (a + c) (b + d).
Proof.
  intros Hm Hk w. unfold bind. destruct (Hm w) as (new & Heq & H1 & H2).
  destruct (m w) as [[x|e] w1]; cbn [snd] in *.
  - destruct (Hk x w1) as (new' & Heq' & H1' & H2').
    exists (new ++ new'). rewrite Heq', Heq, app_assoc.
    unfold replies, forwards in *. rewrite !omap_app, !length_app.
    split; [done | split; lia].
  - exists new. split; [done | split; lia].
Qed.

Lemma emits_send (P : Platform) u name fb rid txt lt :
  emits (send_to_powerapp P u name fb rid txt lt) 0 1.
Proof.
  intros w. rewrite send_to_powerapp_run. cbn [snd trace].
  eexists. split; [done |]. cbn. split; lia.
Qed.

Lemma emits_reply (P : Platform) tok text : emits (reply_message P tok text) 1 0.
Proof.
  intros w. rewrite reply_message_run. cbn [snd trace].
  eexists. split; [done |]. cbn. split; lia.
Qed.

Lemma emits_bootstrap (P : Platform) (u : string) : emits (bootstrap P u) 0 1.
Proof.
  intros w. destruct (profile_of P u) as [name|] eqn:Hp.
  - rewrite (bootstrap_run P u name w Hp). cbn [snd trace].
    eexists. split; [done |]. cbn. split; lia.
  - rewrite (bootstrap_fail P u w Hp). cbn [snd trace].
    eexists. split; [done |]. cbn. split; lia.
Qed.

Lemma emits_update (u : string) (r : Z) : emits (update_last_record_id u r) 0 0.
Proof.
  apply emits_silent. intros w. rewrite update_last_record_id_run. cbn zeta.
  by destruct (Sql.fits_integer r).
Qed.

Lemma emits_feedback_loop (P : Platform) u name msg tok ps :
  emits (Bot3.feedback_loop P u name msg tok ps) 1 1 ∧
  emits (Bot7.feedback_loop P u name msg tok ps) 1 1.
Proof.
  induction ps as [|prefix rest [IH3 IH7]];
    cbn [Bot3.feedback_loop Bot7.feedback_loop].
  - split; apply (emits_mono _ 0 0); try lia; by apply emits_silent.
  - destruct (PyStr.contains prefix msg); [| done].
    split; (apply (emits_bind _ _ 0 0 1 1); [by apply emits_silent | intros rid]);
      (destruct (Re.search text_pattern msg);
         [| apply (emits_mono _ 0 0); try lia; by apply emits_silent]).
    + apply (emits_bind _ _ 0 1 1 0); [apply emits_send | intros _; apply emits_reply].
    + apply (emits_bind _ _ 1 0 0 1); [apply emits_reply | intros _; apply emits_send].
Qed.

(** [X19] Each event adds at most one reply and at most one forward to the
    calls made so far, and takes none of them back, in both files: no event
    is answered twice on its reply token, whatever its content and whatever
    raises. *)
Theorem event_emits_at_most_one (P : Platform) (ev : Event) :
  emits (Bot3.handle P ev) 1 1 ∧ emits (Bot7.handle P ev) 1 1.
Proof.
  destruct ev as [u msg tok | u data tok |]; cbn [Bot3.handle Bot7.handle].
  - split; unfold Bot3.handle_message, Bot7.handle_message;
      (apply (emits_bind _ _ 0 0 1 1);
         [apply emits_silent; intros w; by rewrite reload_if_empty_run | intros _]);
      (apply (emits_bind _ _ 0 0 1 1); [by apply emits_silent | intros name]);
      (destruct (negb (truthy name));
         [apply (emits_mono _ 0 1); try lia; apply emits_bootstrap |]);
      (destruct (String.eqb _ _);
         [apply (emits_mono _ 1 0); try lia; apply emits_reply |]);
      apply emits_feedback_loop.
  - split; unfold Bot3.handle_postback, Bot7.handle_postback;
      (apply (emits_bind _ _ 0 0 1 1); [by apply emits_silent | intros name]);
      (destruct (Re.search _ _);
         [| apply (emits_mono _ 0 0); try lia; by apply emits_silent]).
    + apply (emits_bind _ _ 0 1 1 0); [apply emits_send | intros _].
      apply (emits_bind _ _ 1 0 0 0); [apply emits_reply | intros _].
      apply emits_update.
    + apply (emits_bind _ _ 1 0 0 1); [apply emits_reply | intros _].
      apply (emits_bind _ _ 0 0 0 1); [apply emits_update | intros _].
      apply emits_send.
  - split; apply (emits_mono _ 0 0); try lia; by apply emits_silent.
Qed.
